(** * Gemma configuration registry and SigLIP vision tower

    A shallow embedding of [gemma/config.py] and
    [gemma/siglip_vision/siglip_vision_model.py], followed by the
    properties established about them.

    Conventions.
    - Python [int] is [Z]; [//] on the positive divisors that occur is [Z.div].
    - Python [float] literals are binary64 values ([PrimFloat.float]).
    - [str] is [string]; an f-string is a concatenation.
    - [Optional[T]] is [option T]; a [dict] read with [.get] is a [gmap].
    - A raised exception is the left injection of a sum. *)

From Stdlib Require Import ZArith String Ascii List Floats DecimalString Lia Bool.
From stdpp Require Import base option list gmap strings.
Import ListNotations.

#[local] Set Warnings "-inexact-float".
#[local] Open Scope Z_scope.

(** ** Python scaffolding *)

(** The exceptions that can leave the modelled code.  [ValueError] carries
    its message.  [TorchError] stands for any exception raised from inside a
    PyTorch primitive (a [RuntimeError] or [IndexError] about operand
    shapes); its message is produced by the library and is not modelled. *)
Inductive exn : Type :=
| ValueError (msg : string)
| TorchError.

Definition result (A : Type) : Type := (exn + A)%type.

(** [str(n)] for an [int]: decimal digits, with a leading minus sign. *)
Definition str (n : Z) : string := NilZero.string_of_int (Z.to_int n).

(** The double-quote character, and a name written between two of them. *)
Definition dquote : string := String (ascii_of_nat 34) EmptyString.
Definition quoted (s : string) : string := dquote +:+ s +:+ dquote.

(** [needle in hay] on strings. *)
Fixpoint contains (hay needle : string) : bool :=
  String.prefix needle hay
  || match hay with
     | EmptyString => false
     | String _ hay' => contains hay' needle
     end.

(** [l * n] on sequences: [n] copies of [l], none when [n <= 0]. *)
Definition seq_mul {A : Type} (l : list A) (n : Z) : list A :=
  concat (replicate (Z.to_nat n) l).

(** ** siglip_vision/config.py *)

Module siglip_vision_config.

(** Modelled from the spec: [siglip_vision/config.py] is not part of the
    sources at hand.  The fields are the "VisionConfig" of the data model,
    under the attribute names by which [siglip_vision_model.py] reads them. *)
Record SiglipVisionModelConfig : Type := {
  num_hidden_layers : Z;
  embedding_dim : Z;
  embedding_use_bias : bool;
  input_channels : Z;
  image_size : Z;
  conv2d_patch_size : Z;
  num_attention_heads : Z;
  head_dim : Z;
  intermediate_size : Z;
  layer_norm_eps : float;
  encoding_sequence_length : Z;
}.

(** Modelled from the spec: the canonical SigLIP geometry, absent from the
    sources.  The values are the ones quoted by the comments of
    [SiglipVisionModel.__init__] (3 channels, 1152, 14, 896, bias) and by the
    documentation string of [get_config_for_27b_v3] (27, 16, 72, 4304, 256);
    the image size follows the former and the end-to-end scenario of the
    spec.  The epsilon is the one of the decoder's normalisation layers. *)
Definition get_siglip_vision_model_config : SiglipVisionModelConfig := {|
  num_hidden_layers := 27;
  embedding_dim := 1152;
  embedding_use_bias := true;
  input_channels := 3;
  image_size := 896;
  conv2d_patch_size := 14;
  num_attention_heads := 16;
  head_dim := 72;
  intermediate_size := 4304;
  layer_norm_eps := 1e-6;
  encoding_sequence_length := 256;
|}.

End siglip_vision_config.

(** ** config.py *)

Module config.

(** The element types named by [_STR_DTYPE_TO_TORCH_DTYPE]. *)
Inductive torch_dtype : Type :=
| torch_float16
| torch_float32
| torch_bfloat16.

(** Keep a mapping from dtype strings to the supported torch dtypes. *)
Definition _STR_DTYPE_TO_TORCH_DTYPE : gmap string torch_dtype :=
  <["bfloat16" := torch_bfloat16]>
    (<["float32" := torch_float32]>
       (<["float" := torch_float32]>
          (<["float16" := torch_float16]> ∅))).

Inductive AttentionType : Type :=
| GLOBAL
| LOCAL_SLIDING.

Inductive Architecture : Type :=
| GEMMA_1
| GEMMA_2
| GEMMA_3.

Record GemmaConfig : Type := {
  architecture : Architecture;
  vocab_size : Z;
  max_position_embeddings : Z;
  num_hidden_layers : Z;
  num_attention_heads : Z;
  num_key_value_heads : Z;
  hidden_size : Z;
  intermediate_size : Z;
  head_dim : Z;
  rms_norm_eps : float;
  dtype : string;
  quant : bool;
  tokenizer : option string;
  attn_types : option (list AttentionType);
  sliding_window_size : option Z;
  final_logit_softcapping : option float;
  attn_logit_softcapping : option float;
  query_pre_attn_scalar : option Z;
  use_pre_ffw_norm : bool;
  use_post_ffw_norm : bool;
  rope_wave_length : option (list (AttentionType * Z));
  use_qk_norm : bool;
  vision_config : option siglip_vision_config.SiglipVisionModelConfig;
  rope_scaling_factor : option Z;
}.

(** Gets the torch dtype from the config dtype string. *)
Definition get_dtype (self : GemmaConfig) : option torch_dtype :=
  _STR_DTYPE_TO_TORCH_DTYPE !! dtype self.

(** [GemmaConfig(dtype=dtype)]: every other field at its declared default. *)
Definition get_config_for_7b (dtype : string) : GemmaConfig := {|
  architecture := GEMMA_1;
  vocab_size := 256000;
  max_position_embeddings := 8192;
  num_hidden_layers := 28;
  num_attention_heads := 16;
  num_key_value_heads := 16;
  hidden_size := 3072;
  intermediate_size := 24576;
  head_dim := 256;
  rms_norm_eps := 1e-6;
  dtype := dtype;
  quant := false;
  tokenizer := Some "tokenizer/tokenizer.model";
  attn_types := None;
  sliding_window_size := None;
  final_logit_softcapping := None;
  attn_logit_softcapping := None;
  query_pre_attn_scalar := None;
  use_pre_ffw_norm := false;
  use_post_ffw_norm := false;
  rope_wave_length := None;
  use_qk_norm := false;
  vision_config := None;
  rope_scaling_factor := None;
|}.

Definition get_config_for_2b (dtype : string) : GemmaConfig := {|
  architecture := GEMMA_1;
  vocab_size := 256000;
  max_position_embeddings := 8192;
  num_hidden_layers := 18;
  num_attention_heads := 8;
  num_key_value_heads := 1;
  hidden_size := 2048;
  intermediate_size := 16384;
  head_dim := 256;
  rms_norm_eps := 1e-6;
  dtype := dtype;
  quant := false;
  tokenizer := Some "tokenizer/tokenizer.model";
  attn_types := None;
  sliding_window_size := None;
  final_logit_softcapping := None;
  attn_logit_softcapping := None;
  query_pre_attn_scalar := None;
  use_pre_ffw_norm := false;
  use_post_ffw_norm := false;
  rope_wave_length := None;
  use_qk_norm := false;
  vision_config := None;
  rope_scaling_factor := None;
|}.

Definition get_config_for_2b_v2 (dtype : string) : GemmaConfig := {|
  architecture := GEMMA_2;
  vocab_size := 256000;
  max_position_embeddings := 8192;
  num_hidden_layers := 26;
  num_attention_heads := 8;
  num_key_value_heads := 4;
  hidden_size := 2304;
  intermediate_size := 9216;
  head_dim := 256;
  rms_norm_eps := 1e-6;
  dtype := dtype;
  quant := false;
  tokenizer := Some "tokenizer/tokenizer.model";
  attn_types := Some (seq_mul [LOCAL_SLIDING; GLOBAL] 13);
  sliding_window_size := Some 4096;
  final_logit_softcapping := Some 30.0%float;
  attn_logit_softcapping := Some 50.0%float;
  query_pre_attn_scalar := None;
  use_pre_ffw_norm := true;
  use_post_ffw_norm := true;
  rope_wave_length := None;
  use_qk_norm := false;
  vision_config := None;
  rope_scaling_factor := None;
|}.

Definition get_config_for_9b (dtype : string) : GemmaConfig := {|
  architecture := GEMMA_2;
  vocab_size := 256000;
  max_position_embeddings := 8192;
  num_hidden_layers := 42;
  num_attention_heads := 16;
  num_key_value_heads := 8;
  hidden_size := 3584;
  intermediate_size := 14336;
  head_dim := 256;
  rms_norm_eps := 1e-6;
  dtype := dtype;
  quant := false;
  tokenizer := Some "tokenizer/tokenizer.model";
  attn_types := Some (seq_mul [LOCAL_SLIDING; GLOBAL] 21);
  sliding_window_size := Some 4096;
  final_logit_softcapping := Some 30.0%float;
  attn_logit_softcapping := Some 50.0%float;
  query_pre_attn_scalar := None;
  use_pre_ffw_norm := true;
  use_post_ffw_norm := true;
  rope_wave_length := None;
  use_qk_norm := false;
  vision_config := None;
  rope_scaling_factor := None;
|}.

Definition get_config_for_27b (dtype : string) : GemmaConfig := {|
  architecture := GEMMA_2;
  vocab_size := 256000;
  max_position_embeddings := 8192;
  num_hidden_layers := 46;
  num_attention_heads := 32;
  num_key_value_heads := 16;
  hidden_size := 4608;
  intermediate_size := 36864;
  head_dim := 128;
  rms_norm_eps := 1e-6;
  dtype := dtype;
  quant := false;
  tokenizer := Some "tokenizer/tokenizer.model";
  attn_types := Some (seq_mul [LOCAL_SLIDING; GLOBAL] 23);
  sliding_window_size := Some 4096;
  final_logit_softcapping := Some 30.0%float;
  attn_logit_softcapping := Some 50.0%float;
  query_pre_attn_scalar := Some 144;
  use_pre_ffw_norm := true;
  use_post_ffw_norm := true;
  rope_wave_length := None;
  use_qk_norm := false;
  vision_config := None;
  rope_scaling_factor := None;
|}.

(** The attention pattern and the rotary wave lengths written out by each
    of the four Gemma 3 constructors. *)
Definition gemma3_attn_types : list AttentionType :=
  [LOCAL_SLIDING; LOCAL_SLIDING; LOCAL_SLIDING; LOCAL_SLIDING; LOCAL_SLIDING;
   GLOBAL].

Definition gemma3_rope_wave_length : list (AttentionType * Z) :=
  [(LOCAL_SLIDING, 10000); (GLOBAL, 1000000)].

Definition get_config_for_1b (dtype : string) : GemmaConfig := {|
  architecture := GEMMA_3;
  vocab_size := 262144;
  max_position_embeddings := 32768;
  num_hidden_layers := 26;
  num_attention_heads := 4;
  num_key_value_heads := 1;
  hidden_size := 1152;
  intermediate_size := 6912;
  head_dim := 256;
  rms_norm_eps := 1e-6;
  dtype := dtype;
  quant := false;
  tokenizer := Some "tokenizer/gemma3_cleaned_262144_v2.spiece.model";
  attn_types := Some gemma3_attn_types;
  sliding_window_size := Some 512;
  final_logit_softcapping := None;
  attn_logit_softcapping := None;
  query_pre_attn_scalar := None;
  use_pre_ffw_norm := true;
  use_post_ffw_norm := true;
  rope_wave_length := Some gemma3_rope_wave_length;
  use_qk_norm := true;
  vision_config := None;
  rope_scaling_factor := None;
|}.

Definition get_config_for_4b (dtype : string) : GemmaConfig := {|
  architecture := GEMMA_3;
  vocab_size := 262144;
  max_position_embeddings := 8192;
  num_hidden_layers := 34;
  num_attention_heads := 8;
  num_key_value_heads := 4;
  hidden_size := 2560;
  intermediate_size := 10240;
  head_dim := 256;
  rms_norm_eps := 1e-6;
  dtype := dtype;
  quant := false;
  tokenizer := Some "tokenizer/gemma3_cleaned_262144_v2.spiece.model";
  attn_types := Some gemma3_attn_types;
  sliding_window_size := Some 1024;
  final_logit_softcapping := None;
  attn_logit_softcapping := None;
  query_pre_attn_scalar := None;
  use_pre_ffw_norm := true;
  use_post_ffw_norm := true;
  rope_wave_length := Some gemma3_rope_wave_length;
  use_qk_norm := true;
  vision_config := Some siglip_vision_config.get_siglip_vision_model_config;
  rope_scaling_factor := Some 8;
|}.

Definition get_config_for_12b (dtype : string) : GemmaConfig := {|
  architecture := GEMMA_3;
  vocab_size := 262144;
  max_position_embeddings := 131072;
  num_hidden_layers := 48;
  num_attention_heads := 16;
  num_key_value_heads := 8;
  hidden_size := 3840;
  intermediate_size := 3840 * 8 / 2;
  head_dim := 256;
  rms_norm_eps := 1e-6;
  dtype := dtype;
  quant := false;
  tokenizer := Some "tokenizer/gemma3_cleaned_262144_v2.spiece.model";
  attn_types := Some gemma3_attn_types;
  sliding_window_size := Some 1024;
  final_logit_softcapping := None;
  attn_logit_softcapping := None;
  query_pre_attn_scalar := None;
  use_pre_ffw_norm := true;
  use_post_ffw_norm := true;
  rope_wave_length := Some gemma3_rope_wave_length;
  use_qk_norm := true;
  vision_config := Some siglip_vision_config.get_siglip_vision_model_config;
  rope_scaling_factor := Some 8;
|}.

(** The configuration for the latest full Gemma 3 27B model. *)
Definition get_config_for_27b_v3 (dtype : string) : GemmaConfig := {|
  architecture := GEMMA_3;
  vocab_size := 262144;
  max_position_embeddings := 131072;
  num_hidden_layers := 62;
  num_attention_heads := 32;
  num_key_value_heads := 16;
  hidden_size := 5376;
  intermediate_size := 5376 * 8 / 2;
  head_dim := 128;
  rms_norm_eps := 1e-6;
  dtype := dtype;
  quant := false;
  tokenizer := Some "tokenizer/gemma3_cleaned_262144_v2.spiece.model";
  attn_types := Some gemma3_attn_types;
  sliding_window_size := Some 1024;
  final_logit_softcapping := None;
  attn_logit_softcapping := None;
  query_pre_attn_scalar := Some (5376 / 32);
  use_pre_ffw_norm := true;
  use_post_ffw_norm := true;
  rope_wave_length := Some gemma3_rope_wave_length;
  use_qk_norm := true;
  vision_config := Some siglip_vision_config.get_siglip_vision_model_config;
  rope_scaling_factor := Some 8;
|}.

(** The text of the [ValueError] raised for an unknown variant, with the
    punctuation of the source (a doubled comma after "4b", none after
    "9b"). *)
Definition invalid_variant_message (variant : string) : string :=
  "Invalid variant " +:+ variant +:+ ". Supported variants are "
    +:+ quoted "1b" +:+ ", " +:+ quoted "2b" +:+ ", "
    +:+ quoted "2b-v2" +:+ ", " +:+ quoted "4b" +:+ ",, " +:+ quoted "7b" +:+ ", "
    +:+ quoted "9b" +:+ " " +:+ quoted "12b" +:+ ", " +:+ quoted "27b"
    +:+ ", and " +:+ quoted "27b_v3" +:+ ".".

(** Gets the GemmaConfig for the desired variant and dtype. *)
Definition get_model_config (variant : string) (dtype : string)
  : result GemmaConfig :=
  (* Gemma1 variants *)
  if String.eqb variant "7b" then inr (get_config_for_7b dtype)
  else if String.eqb variant "2b" then inr (get_config_for_2b dtype)
  (* Gemma2 variants *)
  else if String.eqb variant "2b-v2" then inr (get_config_for_2b_v2 dtype)
  else if String.eqb variant "9b" then inr (get_config_for_9b dtype)
  else if String.eqb variant "27b" then inr (get_config_for_27b dtype)
  (* Gemma3 variants *)
  else if String.eqb variant "1b" then inr (get_config_for_1b dtype)
  else if String.eqb variant "4b" then inr (get_config_for_4b dtype)
  else if String.eqb variant "12b" then inr (get_config_for_12b dtype)
  else if String.eqb variant "27b_v3" then inr (get_config_for_27b_v3 dtype)
  (* Invalid variants *)
  else inl (ValueError (invalid_variant_message variant)).

(** The nine names under which a configuration is registered. *)
Definition supported_variants : list string :=
  ["1b"; "2b"; "2b-v2"; "4b"; "7b"; "9b"; "12b"; "27b"; "27b_v3"].

End config.

(** ** PyTorch

    The tensor library is not part of the repository.  A tensor is modelled
    by its size and an abstract content.  Whether a primitive raises is
    decided by the sizes of its operands, following the shape rules of the
    PyTorch documentation; what it computes on the content is left to an
    interface, of which only the commutativity of addition is used.
    Element types, devices and memory layout are not modelled: [view] is
    [reshape], and [contiguous] and [to] keep the size. *)

(** A Python number standing where a tensor operand could: a literal, or
    [n ** 0.5] for an [int] [n]. *)
Inductive scalar : Type :=
| FloatLit (f : float)
| IntLit (n : Z)
| PowHalf (n : Z).

(** Element-wise operations of one tensor. *)
Inductive unary_op : Type :=
| MulScalar (c : scalar)     (* c * x *)
| AddScalar (c : scalar)     (* c + x *)
| DivScalar (c : scalar)     (* x / c *)
| Pow (e : Z)                (* torch.pow(x, e) *)
| Tanh
| Sqrt.

(** Element-wise operations of two tensors, with broadcasting. *)
Inductive binary_op : Type :=
| Add
| Mul.

Class TensorData : Type := {
  Data : Type;
  transpose_data : Z -> Z -> Data -> Data;
  reshape_data : list Z -> Data -> Data;
  pointwise_data : unary_op -> Data -> Data;
  pointwise2_data : binary_op -> Data -> Data -> Data;
  softmax_data : Z -> Data -> Data;
  matmul_data : Data -> Data -> Data;
  linear_data : Data -> Data -> option Data -> Data;
  layer_norm_data : list Z -> Data -> Data -> float -> Data -> Data;
  conv2d_data : Z -> Data -> option Data -> Data -> Data;
  embedding_data : Data -> Data -> Data;
  avg_pool2d_data : Z -> Z -> Data -> Data;
  scalar_data : float -> Data;
  arange_data : Z -> Data;
  expand_data : list Z -> Data -> Data;
  add_data_comm : forall a b : Data,
    pointwise2_data Add a b = pointwise2_data Add b a;
}.

(** The interface is inhabited: tensors that are nothing but their size. *)
#[export] Instance size_only : TensorData := {|
  Data := unit;
  transpose_data := fun _ _ _ => tt;
  reshape_data := fun _ _ => tt;
  pointwise_data := fun _ _ => tt;
  pointwise2_data := fun _ _ _ => tt;
  softmax_data := fun _ _ => tt;
  matmul_data := fun _ _ => tt;
  linear_data := fun _ _ _ => tt;
  layer_norm_data := fun _ _ _ _ _ => tt;
  conv2d_data := fun _ _ _ _ => tt;
  embedding_data := fun _ _ => tt;
  avg_pool2d_data := fun _ _ _ => tt;
  scalar_data := fun _ => tt;
  arange_data := fun _ => tt;
  expand_data := fun _ _ => tt;
  add_data_comm := fun _ _ => eq_refl;
|}.

Module shape.

(** Number of elements of a tensor of size [s]. *)
Definition numel (s : list Z) : Z := foldr Z.mul 1 s.

(** A dimension index of a tensor with [ndim] dimensions: [0 .. ndim-1], or
    counted from the end as [-ndim .. -1]. *)
Definition wrap_dim (ndim : nat) (dim : Z) : option nat :=
  if decide (0 <= dim < Z.of_nat ndim) then Some (Z.to_nat dim)
  else if decide (- Z.of_nat ndim <= dim < 0) then
    Some (Z.to_nat (dim + Z.of_nat ndim))
  else None.

Definition transpose (dim0 dim1 : Z) (s : list Z) : option (list Z) :=
  i ← wrap_dim (List.length s) dim0;
  j ← wrap_dim (List.length s) dim1;
  a ← s !! i;
  b ← s !! j;
  Some (<[i := b]> (<[j := a]> s)).

(** [reshape]/[view] to an explicit size (no inferred [-1] entry occurs in
    the sources): the number of elements must be kept. *)
Definition reshape (target s : list Z) : option (list Z) :=
  if decide (Forall (Z.le 0) target /\ numel target = numel s)
  then Some target else None.

(** [flatten(start_dim)]: the dimensions from [start_dim] on become one. *)
Definition flatten (start_dim : Z) (s : list Z) : option (list Z) :=
  match s with
  | [] => if decide (-1 <= start_dim <= 0) then Some [1] else None
  | _ =>
      i ← wrap_dim (List.length s) start_dim;
      Some (take i s ++ [numel (drop i s)])
  end.

(** Broadcasting of two sizes, aligned on their last dimensions. *)
Fixpoint broadcast_rev (a b : list Z) : option (list Z) :=
  match a, b with
  | [], _ => Some b
  | _, [] => Some a
  | x :: a', y :: b' =>
      r ← broadcast_rev a' b';
      if decide (x = y) then Some (x :: r)
      else if decide (x = 1) then Some (y :: r)
      else if decide (y = 1) then Some (x :: r)
      else None
  end.

Definition broadcast (a b : list Z) : option (list Z) :=
  reverse <$> broadcast_rev (reverse a) (reverse b).

(** [torch.matmul]: a one-dimensional operand is a row (on the left) or a
    column (on the right) whose added dimension is dropped from the result;
    the leading dimensions are broadcast. *)
Definition matmul (a b : list Z) : option (list Z) :=
  match a, b with
  | [], _ | _, [] => None
  | _, _ =>
      let a2 := match a with [_] => 1 :: a | _ => a end in
      let b2 := match b with [_] => b ++ [1] | _ => b end in
      let na := (List.length a2 - 2)%nat in
      let nb := (List.length b2 - 2)%nat in
      match drop na a2, drop nb b2 with
      | [n; m], [m'; p] =>
          if decide (m = m') then
            batch ← broadcast (take na a2) (take nb b2);
            Some (batch
                    ++ match a with [_] => [] | _ => [n] end
                    ++ match b with [_] => [] | _ => [p] end)
          else None
      | _, _ => None
      end
  end.

(** [F.linear(x, weight, bias)] with [weight] of size [(out, in)]. *)
Definition linear (x weight : list Z) (bias : option (list Z))
  : option (list Z) :=
  match weight, reverse x with
  | [out_features; in_features], last_dim :: _ =>
      if decide (last_dim = in_features
                 /\ (bias = None \/ bias = Some [out_features]))
      then Some (removelast x ++ [out_features]) else None
  | _, _ => None
  end.

(** [F.layer_norm(x, normalized_shape, weight, bias, eps)]. *)
Definition layer_norm (normalized_shape x weight bias : list Z)
  : option (list Z) :=
  if decide (weight = normalized_shape /\ bias = normalized_shape
             /\ (List.length normalized_shape <= List.length x)%nat
             /\ drop (List.length x - List.length normalized_shape) x
                = normalized_shape)
  then Some x else None.

(** Output length of a window of [kernel] cells moved by [stride], without
    padding, rounded down. *)
Definition window_out (len kernel stride : Z) : Z :=
  (len - kernel) / stride + 1.

(** [F.conv2d(x, weight, bias, stride)] without padding, dilation or
    groups, on a batched input. *)
Definition conv2d (stride : Z) (weight : list Z) (bias : option (list Z))
    (x : list Z) : option (list Z) :=
  match x, weight with
  | [n; c; h; w], [c_out; c_in; kh; kw] =>
      if decide (0 < stride /\ c = c_in /\ 0 < kh <= h /\ 0 < kw <= w
                 /\ (bias = None \/ bias = Some [c_out]))
      then Some [n; c_out; window_out h kh stride; window_out w kw stride]
      else None
  | _, _ => None
  end.

(** [F.embedding(indices, weight)] with [weight] of size [(num, dim)]. *)
Definition embedding (indices weight : list Z) : option (list Z) :=
  match weight with
  | [_; dim] => Some (indices ++ [dim])
  | _ => None
  end.

(** [F.avg_pool2d(x, kernel_size, stride)] without padding, rounding down.
    The library rejects an input whose channel or spatial dimensions are
    empty, and one for which the calculated output size is below 1 ("Output
    size is too small"). *)
Definition avg_pool2d (kernel_size stride : Z) (x : list Z)
  : option (list Z) :=
  let pooled c h w :=
    let oh := window_out h kernel_size stride in
    let ow := window_out w kernel_size stride in
    if decide (0 < kernel_size /\ 0 < stride
               /\ c <> 0 /\ h <> 0 /\ w <> 0 /\ 1 <= oh /\ 1 <= ow)
    then Some [c; oh; ow] else None in
  match x with
  | [n; c; h; w] => cons n <$> pooled c h w
  | [c; h; w] => pooled c h w
  | _ => None
  end.

(** [x.expand(target)]: [-1] keeps a dimension, a dimension of size 1 is
    repeated, and new dimensions are added in front. *)
Fixpoint expand_rev (target s : list Z) : option (list Z) :=
  match target, s with
  | [], [] => Some []
  | [], _ :: _ => None
  | t :: target', [] =>
      if decide (0 <= t) then cons t <$> expand_rev target' [] else None
  | t :: target', d :: s' =>
      r ← expand_rev target' s';
      if decide (t = -1) then Some (d :: r)
      else if decide (t = d) then Some (t :: r)
      else if decide (d = 1 /\ 0 <= t) then Some (t :: r)
      else None
  end.

Definition expand (target s : list Z) : option (list Z) :=
  reverse <$> expand_rev (reverse target) (reverse s).

(** [torch.arange(end)] for an [int]. *)
Definition arange (n : Z) : option (list Z) :=
  if decide (0 <= n) then Some [n] else None.

(** [F.softmax(x, dim)]. *)
Definition softmax (dim : Z) (x : list Z) : option (list Z) :=
  match x with
  | [] => if decide (-1 <= dim <= 0) then Some [] else None
  | _ => _ ← wrap_dim (List.length x) dim; Some x
  end.

End shape.

(** Exceptions and the state of the object whose method runs: a computation
    of [M S A] reads and may update a [self] of type [S], and returns a
    value of type [A] or raises. *)
Definition M (S A : Type) : Type := S -> result A * S.

#[export] Instance M_ret {S : Type} : MRet (M S) :=
  fun A a self => (inr a, self).

#[export] Instance M_bind {S : Type} : MBind (M S) :=
  fun A B f m self =>
    match m self with
    | (inr a, self') => f a self'
    | (inl e, self') => (inl e, self')
    end.

(** [raise e]. *)
Definition raise {S A : Type} (e : exn) : M S A :=
  fun self => (inl e, self).

(** [self.name]. *)
Definition attr {S A : Type} (name : S -> A) : M S A :=
  fun self => (inr (name self), self).

(** The outcome of a library primitive: its value, or [TorchError]. *)
Definition torch_call {S A : Type} (o : option A) : M S A :=
  match o with
  | Some a => mret a
  | None => raise TorchError
  end.

(** [self.name(args)] for a sub-module: its method runs on the object held
    by the attribute, which is the same object afterwards. *)
Definition call {S T A : Type} (name : S -> T) (set_name : T -> S -> S)
    (method : M T A) : M S A :=
  fun self =>
    let (r, t) := method (name self) in (r, set_name t self).

(** [for module in modules: x = module(x)] on a list of sub-modules. *)
Fixpoint for_each {T A : Type} (body : A -> M T A) (x : A) : M (list T) A :=
  fun modules =>
    match modules with
    | [] => (inr x, [])
    | module :: rest =>
        match body x module with
        | (inr x', module') =>
            let (r, rest') := for_each body x' rest in (r, module' :: rest')
        | (inl e, module') => (inl e, module' :: rest)
        end
    end.

(** The value returned (or the exception raised) by a method. *)
Definition run {S A : Type} (method : M S A) (self : S) : result A :=
  (method self).1.

(** [a, b, c = s] for a size [s]. *)
Definition unpack3 {S : Type} (s : list Z) : M S (Z * Z * Z) :=
  match s with
  | [a; b; c] => mret (a, b, c)
  | _ =>
      raise (ValueError
               (if decide (List.length s < 3)%nat
                then "not enough values to unpack (expected 3, got "
                       +:+ str (Z.of_nat (List.length s)) +:+ ")"
                else "too many values to unpack (expected 3)"))
  end.

(** [int(n ** 0.5)].  The square root is taken in binary64 and truncated;
    on every length a tensor can have (far below [2 ^ 52]) this is the
    integer square root. *)
Definition int_pow_half (n : Z) : Z := Z.sqrt n.

Module torch.
Section with_data.
Context `{TensorData}.

Record Tensor : Type := mk_tensor { size : list Z; data : Data }.

Definition transpose (dim0 dim1 : Z) (x : Tensor) : option Tensor :=
  s ← shape.transpose dim0 dim1 (size x);
  Some (mk_tensor s (transpose_data dim0 dim1 (data x))).

Definition reshape (target : list Z) (x : Tensor) : option Tensor :=
  s ← shape.reshape target (size x);
  Some (mk_tensor s (reshape_data s (data x))).

Definition view (target : list Z) (x : Tensor) : option Tensor :=
  reshape target x.

Definition flatten (start_dim : Z) (x : Tensor) : option Tensor :=
  s ← shape.flatten start_dim (size x);
  Some (mk_tensor s (reshape_data s (data x))).

Definition contiguous (x : Tensor) : Tensor := x.

(** [x.to(device)]. *)
Definition to (x : Tensor) : Tensor := x.

(** [c * x], [c + x], [x / c] for a number [c], and the unary functions. *)
Definition pointwise (op : unary_op) (x : Tensor) : Tensor :=
  mk_tensor (size x) (pointwise_data op (data x)).

(** [x + y] and [x * y]. *)
Definition pointwise2 (op : binary_op) (x y : Tensor) : option Tensor :=
  s ← shape.broadcast (size x) (size y);
  Some (mk_tensor s (pointwise2_data op (data x) (data y))).

Definition add : Tensor -> Tensor -> option Tensor := pointwise2 Add.
Definition mul : Tensor -> Tensor -> option Tensor := pointwise2 Mul.

Definition pow (x : Tensor) (exponent : Z) : Tensor :=
  pointwise (Pow exponent) x.
Definition tanh : Tensor -> Tensor := pointwise Tanh.
Definition sqrt : Tensor -> Tensor := pointwise Sqrt.

(** [torch.tensor(f)] for a number: a tensor without dimensions. *)
Definition tensor (f : float) : Tensor := mk_tensor [] (scalar_data f).

Definition matmul (a b : Tensor) : option Tensor :=
  s ← shape.matmul (size a) (size b);
  Some (mk_tensor s (matmul_data (data a) (data b))).

Definition arange (n : Z) : option Tensor :=
  s ← shape.arange n;
  Some (mk_tensor s (arange_data n)).

Definition expand (target : list Z) (x : Tensor) : option Tensor :=
  s ← shape.expand target (size x);
  Some (mk_tensor s (expand_data target (data x))).

End with_data.

(** [torch.pi]. *)
Definition pi : float := 0x1.921fb54442d18p+1%float.

End torch.

(** [torch.nn.functional]. *)
Module F.
Section with_data.
Context `{TensorData}.
Import torch.

Definition softmax (x : Tensor) (dim : Z) : option Tensor :=
  s ← shape.softmax dim (size x);
  Some (mk_tensor s (softmax_data dim (data x))).

Definition linear (x weight : Tensor) (bias : option Tensor)
  : option Tensor :=
  s ← shape.linear (size x) (size weight) (size <$> bias);
  Some (mk_tensor s (linear_data (data x) (data weight) (data <$> bias))).

Definition layer_norm (x : Tensor) (normalized_shape : list Z)
    (weight bias : Tensor) (eps : float) : option Tensor :=
  s ← shape.layer_norm normalized_shape (size x) (size weight) (size bias);
  Some (mk_tensor s (layer_norm_data normalized_shape (data weight)
                       (data bias) eps (data x))).

Definition conv2d (x weight : Tensor) (bias : option Tensor) (stride : Z)
  : option Tensor :=
  s ← shape.conv2d stride (size weight) (size <$> bias) (size x);
  Some (mk_tensor s (conv2d_data stride (data weight) (data <$> bias)
                       (data x))).

Definition embedding (indices weight : Tensor) : option Tensor :=
  s ← shape.embedding (size indices) (size weight);
  Some (mk_tensor s (embedding_data (data weight) (data indices))).

Definition avg_pool2d (x : Tensor) (kernel_size stride : Z)
  : option Tensor :=
  s ← shape.avg_pool2d kernel_size stride (size x);
  Some (mk_tensor s (avg_pool2d_data kernel_size stride (data x))).

End with_data.
End F.

(** [torch.nn]: the library layers the vision tower is built from.  Each
    [initialized] predicate states the sizes of the parameters its
    constructor allocates. *)
Module nn.

Module Linear.
Section with_data.
Context `{TensorData}.
Import torch.

Record t : Type := { weight : Tensor; bias : option Tensor }.

Definition forward (x : Tensor) : M t Tensor :=
  w ← attr weight;
  b ← attr bias;
  torch_call (F.linear x w b).

(** [nn.Linear(in_features, out_features, bias=True)]. *)
Definition initialized (in_features out_features : Z) (self : t) : Prop :=
  size (weight self) = [out_features; in_features]
  /\ size <$> bias self = Some [out_features].

End with_data.
End Linear.

Module LayerNorm.
Section with_data.
Context `{TensorData}.
Import torch.

Record t : Type := {
  normalized_shape : list Z;
  eps : float;
  weight : Tensor;
  bias : Tensor;
}.

Definition forward (x : Tensor) : M t Tensor :=
  normalized_shape ← attr normalized_shape;
  w ← attr weight;
  b ← attr bias;
  eps ← attr eps;
  torch_call (F.layer_norm x normalized_shape w b eps).

(** [nn.LayerNorm(normalized_shape, eps)] for an [int] shape. *)
Definition initialized (dim : Z) (epsilon : float) (self : t) : Prop :=
  normalized_shape self = [dim]
  /\ eps self = epsilon
  /\ size (weight self) = [dim]
  /\ size (bias self) = [dim].

End with_data.
End LayerNorm.

Module Conv2d.
Section with_data.
Context `{TensorData}.
Import torch.

Record t : Type := {
  weight : Tensor;
  bias : option Tensor;
  stride : Z;
}.

Definition forward (x : Tensor) : M t Tensor :=
  w ← attr weight;
  b ← attr bias;
  stride ← attr stride;
  torch_call (F.conv2d x w b stride).

(** [nn.Conv2d(in_channels, out_channels, kernel_size, stride, padding=0,
    bias)] with a square kernel. *)
Definition initialized (in_channels out_channels kernel_size strd : Z)
    (use_bias : bool) (self : t) : Prop :=
  size (weight self) = [out_channels; in_channels; kernel_size; kernel_size]
  /\ stride self = strd
  /\ size <$> bias self = (if use_bias then Some [out_channels] else None).

End with_data.
End Conv2d.

Module Embedding.
Section with_data.
Context `{TensorData}.
Import torch.

Record t : Type := { weight : Tensor }.

Definition forward (indices : Tensor) : M t Tensor :=
  w ← attr weight;
  torch_call (F.embedding indices w).

(** [nn.Embedding(num_embeddings, embedding_dim)]. *)
Definition initialized (num_embeddings embedding_dim : Z) (self : t)
  : Prop :=
  size (weight self) = [num_embeddings; embedding_dim].

End with_data.
End Embedding.

End nn.

(** ** siglip_vision/siglip_vision_model.py *)

Module siglip_vision_model.
Import siglip_vision_config torch.

(** Applies 4x4 average pooling and reshaping. *)
Module AveragePool2D.
Section with_data.
Context `{TensorData}.

Record t : Type := { config : SiglipVisionModelConfig }.

Definition not_square_message (seq_len : Z) : string :=
  "Sequence length " +:+ str seq_len
    +:+ " is not a perfect square. Cannot reshape to a square image.".

Definition forward (x : Tensor) : M t Tensor :=
  '(batch_size, seq_len, channels) ← unpack3 (size x);
  let width := int_pow_half seq_len in
  if decide (width * width <> seq_len) then
    raise (ValueError (not_square_message seq_len))
  else
    (* Bx(64^2)x1152 -> Bx1152x(64^2) -> Bx1152x64x64 *)
    x ← torch_call (transpose 1 2 x);
    x ← torch_call (reshape [batch_size; channels; width; width] x);
    (* Bx1152x64x64-> Bx1152x16x16 *)
    x ← torch_call (F.avg_pool2d x 4 4);
    (* Bx1152x64x64-> Bx1152x256 -> Bx256x1152 *)
    x ← torch_call (flatten 2 x);
    x ← torch_call (transpose 1 2 x);
    mret x.

End with_data.
End AveragePool2D.

(** Siglip attention module. *)
Module SiglipAttention.
Section with_data.
Context `{TensorData}.

Record t : Type := {
  dim : Z;
  num_heads : Z;
  head_dim : Z;
  k_proj : nn.Linear.t;
  q_proj : nn.Linear.t;
  v_proj : nn.Linear.t;
  o_proj : nn.Linear.t;
}.

Definition set_k_proj (v : nn.Linear.t) (self : t) : t :=
  {| dim := dim self; num_heads := num_heads self; head_dim := head_dim self;
     k_proj := v; q_proj := q_proj self; v_proj := v_proj self;
     o_proj := o_proj self |}.

Definition set_q_proj (v : nn.Linear.t) (self : t) : t :=
  {| dim := dim self; num_heads := num_heads self; head_dim := head_dim self;
     k_proj := k_proj self; q_proj := v; v_proj := v_proj self;
     o_proj := o_proj self |}.

Definition set_v_proj (v : nn.Linear.t) (self : t) : t :=
  {| dim := dim self; num_heads := num_heads self; head_dim := head_dim self;
     k_proj := k_proj self; q_proj := q_proj self; v_proj := v;
     o_proj := o_proj self |}.

Definition set_o_proj (v : nn.Linear.t) (self : t) : t :=
  {| dim := dim self; num_heads := num_heads self; head_dim := head_dim self;
     k_proj := k_proj self; q_proj := q_proj self; v_proj := v_proj self;
     o_proj := v |}.

Definition forward (x : Tensor) : M t Tensor :=
  '(batch_size, seq_len, _) ← unpack3 (size x);
  (* Project inputs to key, query, value *)
  k ← call k_proj set_k_proj (nn.Linear.forward x);
  num_heads_ ← attr num_heads;
  head_dim_ ← attr head_dim;
  k ← torch_call (view [batch_size; seq_len; num_heads_; head_dim_] k);
  q ← call q_proj set_q_proj (nn.Linear.forward x);
  num_heads_ ← attr num_heads;
  head_dim_ ← attr head_dim;
  q ← torch_call (view [batch_size; seq_len; num_heads_; head_dim_] q);
  v ← call v_proj set_v_proj (nn.Linear.forward x);
  num_heads_ ← attr num_heads;
  head_dim_ ← attr head_dim;
  v ← torch_call (view [batch_size; seq_len; num_heads_; head_dim_] v);
  (* Transpose for multi-head attention *)
  k ← torch_call (transpose 1 2 k);
  q ← torch_call (transpose 1 2 q);
  v ← torch_call (transpose 1 2 v);
  (* Scaled dot-product attention *)
  k_t ← torch_call (transpose (-2) (-1) k);
  scores ← torch_call (matmul q k_t);
  head_dim_ ← attr head_dim;
  let scores := pointwise (DivScalar (PowHalf head_dim_)) scores in
  attn_weights ← torch_call (F.softmax scores (-1));
  attn_output ← torch_call (matmul attn_weights v);
  (* Transpose back to (batch_size, seq_len, num_heads, head_dim) *)
  attn_output ← torch_call (transpose 1 2 attn_output);
  let attn_output := contiguous attn_output in
  num_heads_ ← attr num_heads;
  head_dim_ ← attr head_dim;
  attn_output ←
    torch_call
      (view [batch_size; seq_len; num_heads_ * head_dim_] attn_output);
  (* Apply output projection *)
  output ← call o_proj set_o_proj (nn.Linear.forward attn_output);
  mret output.

(** [SiglipAttention(dim, num_heads, head_dim)]. *)
Definition initialized (dimension heads head_dimension : Z) (self : t)
  : Prop :=
  dim self = dimension
  /\ num_heads self = heads
  /\ head_dim self = head_dimension
  /\ nn.Linear.initialized dimension (heads * head_dimension) (k_proj self)
  /\ nn.Linear.initialized dimension (heads * head_dimension) (q_proj self)
  /\ nn.Linear.initialized dimension (heads * head_dimension) (v_proj self)
  /\ nn.Linear.initialized (heads * head_dimension) dimension (o_proj self).

End with_data.
End SiglipAttention.

(** Siglip MLP module. *)
Module SiglipMLP.
Section with_data.
Context `{TensorData}.

Record t : Type := { fc1 : nn.Linear.t; fc2 : nn.Linear.t }.

Definition set_fc1 (v : nn.Linear.t) (self : t) : t :=
  {| fc1 := v; fc2 := fc2 self |}.

Definition set_fc2 (v : nn.Linear.t) (self : t) : t :=
  {| fc1 := fc1 self; fc2 := v |}.

(** Apply the GELU approximation function. *)
Definition gelu_tanh (x : Tensor) : M t Tensor :=
  let half_x := pointwise (MulScalar (FloatLit 0.5)) x in
  let c := sqrt (tensor (2.0 / torch.pi)) in
  let cubic := pointwise (MulScalar (FloatLit 0.044715)) (pow x 3) in
  inner ← torch_call (add x cubic);
  scaled ← torch_call (mul c inner);
  let gate := pointwise (AddScalar (IntLit 1)) (tanh scaled) in
  torch_call (mul half_x gate).

Definition forward (x : Tensor) : M t Tensor :=
  x ← call fc1 set_fc1 (nn.Linear.forward x);
  x ← gelu_tanh x;
  x ← call fc2 set_fc2 (nn.Linear.forward x);
  mret x.

(** [SiglipMLP(hidden_size, intermediate_size)]. *)
Definition initialized (hidden_size intermediate_size : Z) (self : t)
  : Prop :=
  nn.Linear.initialized hidden_size intermediate_size (fc1 self)
  /\ nn.Linear.initialized intermediate_size hidden_size (fc2 self).

End with_data.
End SiglipMLP.

(** Encoder block (Transformer layer) for siglip vision model. *)
Module SiglipEncoderBlock.
Section with_data.
Context `{TensorData}.

Record t : Type := {
  self_attn : SiglipAttention.t;
  layer_norm1 : nn.LayerNorm.t;
  mlp : SiglipMLP.t;
  layer_norm2 : nn.LayerNorm.t;
}.

Definition set_self_attn (v : SiglipAttention.t) (self : t) : t :=
  {| self_attn := v; layer_norm1 := layer_norm1 self; mlp := mlp self;
     layer_norm2 := layer_norm2 self |}.

Definition set_layer_norm1 (v : nn.LayerNorm.t) (self : t) : t :=
  {| self_attn := self_attn self; layer_norm1 := v; mlp := mlp self;
     layer_norm2 := layer_norm2 self |}.

Definition set_mlp (v : SiglipMLP.t) (self : t) : t :=
  {| self_attn := self_attn self; layer_norm1 := layer_norm1 self; mlp := v;
     layer_norm2 := layer_norm2 self |}.

Definition set_layer_norm2 (v : nn.LayerNorm.t) (self : t) : t :=
  {| self_attn := self_attn self; layer_norm1 := layer_norm1 self;
     mlp := mlp self; layer_norm2 := v |}.

Definition forward (x : Tensor) : M t Tensor :=
  (* Pre-LN *)
  let residual := x in
  x ← call layer_norm1 set_layer_norm1 (nn.LayerNorm.forward x);
  x ← call self_attn set_self_attn (SiglipAttention.forward x);
  x ← torch_call (add x residual);
  let residual := x in
  x ← call layer_norm2 set_layer_norm2 (nn.LayerNorm.forward x);
  x ← call mlp set_mlp (SiglipMLP.forward x);
  x ← torch_call (add x residual);
  mret x.

(** [SiglipEncoderBlock(config)]. *)
Definition initialized (config : SiglipVisionModelConfig) (self : t)
  : Prop :=
  SiglipAttention.initialized (embedding_dim config)
    (num_attention_heads config) (head_dim config) (self_attn self)
  /\ nn.LayerNorm.initialized (embedding_dim config) (layer_norm_eps config)
       (layer_norm1 self)
  /\ SiglipMLP.initialized (embedding_dim config) (intermediate_size config)
       (mlp self)
  /\ nn.LayerNorm.initialized (embedding_dim config) (layer_norm_eps config)
       (layer_norm2 self).

End with_data.
End SiglipEncoderBlock.

(** Siglip vision model for gemma 3 and paligemma. *)
Module SiglipVisionModel.
Section with_data.
Context `{TensorData}.

Record t : Type := {
  patch_embedding : nn.Conv2d.t;
  num_patches : Z;
  num_positions : Z;
  position_embedding : nn.Embedding.t;
  position_ids : Tensor;
  encoder_blocks : list SiglipEncoderBlock.t;
  final_norm : nn.LayerNorm.t;
  avg_pool : AveragePool2D.t;
  config : SiglipVisionModelConfig;
}.

Definition set_patch_embedding (v : nn.Conv2d.t) (self : t) : t :=
  {| patch_embedding := v; num_patches := num_patches self;
     num_positions := num_positions self;
     position_embedding := position_embedding self;
     position_ids := position_ids self;
     encoder_blocks := encoder_blocks self; final_norm := final_norm self;
     avg_pool := avg_pool self; config := config self |}.

Definition set_position_embedding (v : nn.Embedding.t) (self : t) : t :=
  {| patch_embedding := patch_embedding self;
     num_patches := num_patches self; num_positions := num_positions self;
     position_embedding := v; position_ids := position_ids self;
     encoder_blocks := encoder_blocks self; final_norm := final_norm self;
     avg_pool := avg_pool self; config := config self |}.

Definition set_encoder_blocks (v : list SiglipEncoderBlock.t) (self : t)
  : t :=
  {| patch_embedding := patch_embedding self;
     num_patches := num_patches self; num_positions := num_positions self;
     position_embedding := position_embedding self;
     position_ids := position_ids self; encoder_blocks := v;
     final_norm := final_norm self; avg_pool := avg_pool self;
     config := config self |}.

Definition set_final_norm (v : nn.LayerNorm.t) (self : t) : t :=
  {| patch_embedding := patch_embedding self;
     num_patches := num_patches self; num_positions := num_positions self;
     position_embedding := position_embedding self;
     position_ids := position_ids self;
     encoder_blocks := encoder_blocks self; final_norm := v;
     avg_pool := avg_pool self; config := config self |}.

Definition set_avg_pool (v : AveragePool2D.t) (self : t) : t :=
  {| patch_embedding := patch_embedding self;
     num_patches := num_patches self; num_positions := num_positions self;
     position_embedding := position_embedding self;
     position_ids := position_ids self;
     encoder_blocks := encoder_blocks self; final_norm := final_norm self;
     avg_pool := v; config := config self |}.

(** [SiglipVisionModel(config)]: the attributes [__init__] assigns.  The
    number of patches and the buffer of position ids are computed there;
    the parameters of the layers are allocated with the sizes stated by
    their [initialized] predicates. *)
Definition initialized (cfg : SiglipVisionModelConfig) (self : t) : Prop :=
  nn.Conv2d.initialized (input_channels cfg) (embedding_dim cfg)
    (conv2d_patch_size cfg) (conv2d_patch_size cfg) (embedding_use_bias cfg)
    (patch_embedding self)
  /\ num_patches self = (image_size cfg / conv2d_patch_size cfg) ^ 2
  /\ num_positions self = num_patches self
  /\ nn.Embedding.initialized (num_positions self) (embedding_dim cfg)
       (position_embedding self)
  /\ Some (position_ids self)
     = (arange (num_positions self) ≫= expand [1; -1])
  /\ List.length (encoder_blocks self) = Z.to_nat (num_hidden_layers cfg)
  /\ Forall (SiglipEncoderBlock.initialized cfg) (encoder_blocks self)
  /\ nn.LayerNorm.initialized (embedding_dim cfg) (layer_norm_eps cfg)
       (final_norm self)
  /\ AveragePool2D.config (avg_pool self) = cfg
  /\ config self = cfg.

(** The forward pass; it runs in inference mode, which changes no value. *)
Definition forward (pixel_values : Tensor) : M t Tensor :=
  (* 1. Embed the image according to SiplipVisionEmbeddings *)
  x ← call patch_embedding set_patch_embedding
        (nn.Conv2d.forward pixel_values);
  (* 2. Flatten the image and transpose the dimensions *)
  x ← torch_call (flatten 2 x);
  x ← torch_call (transpose 1 2 x);
  (* 3. Add the position embeddings to the image embeddings *)
  position_ids ← attr position_ids;
  let position_ids := to position_ids in
  embeddings ← call position_embedding set_position_embedding
                 (nn.Embedding.forward position_ids);
  x ← torch_call (add x embeddings);
  (* 4. Pass the image embeddings to the SiglipEncoderBlocks *)
  x ← call encoder_blocks set_encoder_blocks
        (for_each SiglipEncoderBlock.forward x);
  (* 5. Apply the final normalization *)
  x ← call final_norm set_final_norm (nn.LayerNorm.forward x);
  (* 6. Apply the average pooling *)
  call avg_pool set_avg_pool (AveragePool2D.forward x).

End with_data.
End SiglipVisionModel.

End siglip_vision_model.

(** ** Sample objects

    Models whose tensors are their sizes, built as [__init__] builds them;
    they serve as concrete inputs further down. *)

Module sample.
Import siglip_vision_config siglip_vision_model torch.

Definition sized (s : list Z) : Tensor (H := size_only) := mk_tensor s tt.

Definition Linear (in_features out_features : Z) : nn.Linear.t :=
  {| nn.Linear.weight := sized [out_features; in_features];
     nn.Linear.bias := Some (sized [out_features]) |}.

Definition LayerNorm (dim : Z) (eps : float) : nn.LayerNorm.t :=
  {| nn.LayerNorm.normalized_shape := [dim];
     nn.LayerNorm.eps := eps;
     nn.LayerNorm.weight := sized [dim];
     nn.LayerNorm.bias := sized [dim] |}.

Definition Attention (dim num_heads head_dim : Z) : SiglipAttention.t :=
  {| SiglipAttention.dim := dim;
     SiglipAttention.num_heads := num_heads;
     SiglipAttention.head_dim := head_dim;
     SiglipAttention.k_proj := Linear dim (num_heads * head_dim);
     SiglipAttention.q_proj := Linear dim (num_heads * head_dim);
     SiglipAttention.v_proj := Linear dim (num_heads * head_dim);
     SiglipAttention.o_proj := Linear (num_heads * head_dim) dim |}.

Definition MLP (hidden_size intermediate_size : Z) : SiglipMLP.t :=
  {| SiglipMLP.fc1 := Linear hidden_size intermediate_size;
     SiglipMLP.fc2 := Linear intermediate_size hidden_size |}.

Definition EncoderBlock (cfg : SiglipVisionModelConfig)
  : SiglipEncoderBlock.t :=
  {| SiglipEncoderBlock.self_attn :=
       Attention (embedding_dim cfg) (num_attention_heads cfg) (head_dim cfg);
     SiglipEncoderBlock.layer_norm1 :=
       LayerNorm (embedding_dim cfg) (layer_norm_eps cfg);
     SiglipEncoderBlock.mlp :=
       MLP (embedding_dim cfg) (intermediate_size cfg);
     SiglipEncoderBlock.layer_norm2 :=
       LayerNorm (embedding_dim cfg) (layer_norm_eps cfg) |}.

Definition VisionModel (cfg : SiglipVisionModelConfig)
  : SiglipVisionModel.t :=
  let num_patches := (image_size cfg / conv2d_patch_size cfg) ^ 2 in
  {| SiglipVisionModel.patch_embedding :=
       {| nn.Conv2d.weight :=
            sized [embedding_dim cfg; input_channels cfg;
                   conv2d_patch_size cfg; conv2d_patch_size cfg];
          nn.Conv2d.bias :=
            if embedding_use_bias cfg then Some (sized [embedding_dim cfg])
            else None;
          nn.Conv2d.stride := conv2d_patch_size cfg |};
     SiglipVisionModel.num_patches := num_patches;
     SiglipVisionModel.num_positions := num_patches;
     SiglipVisionModel.position_embedding :=
       {| nn.Embedding.weight := sized [num_patches; embedding_dim cfg] |};
     SiglipVisionModel.position_ids := sized [1; num_patches];
     SiglipVisionModel.encoder_blocks :=
       replicate (Z.to_nat (num_hidden_layers cfg)) (EncoderBlock cfg);
     SiglipVisionModel.final_norm :=
       LayerNorm (embedding_dim cfg) (layer_norm_eps cfg);
     SiglipVisionModel.avg_pool := {| AveragePool2D.config := cfg |};
     SiglipVisionModel.config := cfg |}.

(** A small geometry: 8x8 images in 2x2 patches, hence a 4x4 grid. *)
Definition small_config : SiglipVisionModelConfig :=
  {| num_hidden_layers := 2;
     embedding_dim := 6;
     embedding_use_bias := true;
     input_channels := 3;
     image_size := 8;
     conv2d_patch_size := 2;
     num_attention_heads := 2;
     head_dim := 3;
     intermediate_size := 5;
     layer_norm_eps := 1e-6;
     encoding_sequence_length := 1 |}.

(** The same with 12x12 images, hence a 6x6 grid of 36 patches. *)
Definition grid6_config : SiglipVisionModelConfig :=
  {| num_hidden_layers := 2;
     embedding_dim := 6;
     embedding_use_bias := true;
     input_channels := 3;
     image_size := 12;
     conv2d_patch_size := 2;
     num_attention_heads := 2;
     head_dim := 3;
     intermediate_size := 5;
     layer_norm_eps := 1e-6;
     encoding_sequence_length := 1 |}.

(** The same with 6x6 images, hence a 3x3 grid of 9 patches. *)
Definition grid3_config : SiglipVisionModelConfig :=
  {| num_hidden_layers := 2;
     embedding_dim := 6;
     embedding_use_bias := true;
     input_channels := 3;
     image_size := 6;
     conv2d_patch_size := 2;
     num_attention_heads := 2;
     head_dim := 3;
     intermediate_size := 5;
     layer_norm_eps := 1e-6;
     encoding_sequence_length := 1 |}.

End sample.

(** ** Notions used by the statements *)

(** Sequencing of results outside any object. *)
#[export] Instance result_ret : MRet result := fun A a => inr a.

#[export] Instance result_bind : MBind result :=
  fun A B f r =>
    match r with
    | inr a => f a
    | inl e => inl e
    end.

(** The outcome of a library primitive, as a result. *)
Definition torch_result {A : Type} (o : option A) : result A :=
  match o with
  | Some a => inr a
  | None => inl TorchError
  end.

(** A method that leaves the object it runs on as it found it. *)
Definition read_only {S A : Type} (method : M S A) : Prop :=
  forall self : S, (method self).2 = self.

(** A vision geometry all of whose counts are positive. *)
Definition positive_geometry
    (cfg : siglip_vision_config.SiglipVisionModelConfig) : Prop :=
  0 < siglip_vision_config.input_channels cfg
  /\ 0 < siglip_vision_config.embedding_dim cfg
  /\ 0 < siglip_vision_config.conv2d_patch_size cfg
  /\ 0 < siglip_vision_config.num_attention_heads cfg
  /\ 0 < siglip_vision_config.head_dim cfg
  /\ 0 < siglip_vision_config.intermediate_size cfg.

(** The side of the square grid of patches: [image_size // patch_size]. *)
Definition grid_side
    (cfg : siglip_vision_config.SiglipVisionModelConfig) : Z :=
  siglip_vision_config.image_size cfg
  / siglip_vision_config.conv2d_patch_size cfg.

(** The components of the vision tower as the specification words them,
    each a function of the model and of the tensor it receives. *)
Module spec.
Section with_data.
Context `{TensorData}.
Import siglip_vision_model torch.

Definition LayerNorm1 (block : SiglipEncoderBlock.t) (x : Tensor)
  : result Tensor :=
  run (nn.LayerNorm.forward x) (SiglipEncoderBlock.layer_norm1 block).

Definition SelfAttentionBlock (block : SiglipEncoderBlock.t) (x : Tensor)
  : result Tensor :=
  run (SiglipAttention.forward x) (SiglipEncoderBlock.self_attn block).

Definition LayerNorm2 (block : SiglipEncoderBlock.t) (x : Tensor)
  : result Tensor :=
  run (nn.LayerNorm.forward x) (SiglipEncoderBlock.layer_norm2 block).

Definition MLP (block : SiglipEncoderBlock.t) (x : Tensor) : result Tensor :=
  run (SiglipMLP.forward x) (SiglipEncoderBlock.mlp block).

(** [x' = x + SelfAttentionBlock(LayerNorm1(x))], then
    [x'' = x' + MLP(LayerNorm2(x'))]. *)
Definition EncoderBlock (block : SiglipEncoderBlock.t) (x : Tensor)
  : result Tensor :=
  normed ← LayerNorm1 block x;
  attended ← SelfAttentionBlock block normed;
  x' ← torch_result (add x attended);
  normed ← LayerNorm2 block x';
  fed ← MLP block normed;
  torch_result (add x' fed).

(** The blocks of the stack, applied in order. *)
Fixpoint EncoderStack (blocks : list SiglipEncoderBlock.t) (x : Tensor)
  : result Tensor :=
  match blocks with
  | [] => inr x
  | block :: rest =>
      run (SiglipEncoderBlock.forward x) block ≫= EncoderStack rest
  end.

(** The strided convolution, reshaped to a sequence of patches. *)
Definition PatchEmbedding (model : SiglipVisionModel.t)
    (pixel_values : Tensor) : result Tensor :=
  x ← run (nn.Conv2d.forward pixel_values)
        (SiglipVisionModel.patch_embedding model);
  x ← torch_result (flatten 2 x);
  torch_result (transpose 1 2 x).

(** The learned vectors of the positions [0 .. num_positions - 1], added
    with broadcasting over the batch. *)
Definition AddPositionEmbedding (model : SiglipVisionModel.t) (x : Tensor)
  : result Tensor :=
  embeddings ←
    run (nn.Embedding.forward (SiglipVisionModel.position_ids model))
      (SiglipVisionModel.position_embedding model);
  torch_result (add x embeddings).

Definition FinalNorm (model : SiglipVisionModel.t) (x : Tensor)
  : result Tensor :=
  run (nn.LayerNorm.forward x) (SiglipVisionModel.final_norm model).

Definition AveragePool2D (model : SiglipVisionModel.t) (x : Tensor)
  : result Tensor :=
  run (AveragePool2D.forward x) (SiglipVisionModel.avg_pool model).

(** PatchEmbedding, add PositionEmbedding, every block of the stack, the
    final normalization, AveragePool2D. *)
Definition VisionTower (model : SiglipVisionModel.t) (pixel_values : Tensor)
  : result Tensor :=
  x ← PatchEmbedding model pixel_values;
  x ← AddPositionEmbedding model x;
  x ← EncoderStack (SiglipVisionModel.encoder_blocks model) x;
  x ← FinalNorm model x;
  AveragePool2D model x.

End with_data.
End spec.

(** * Properties *)

Import config.

(** ** Occurrences in strings *)

Lemma prefix_append (s t : string) : String.prefix s (s +:+ t) = true.
Proof.
  induction s as [|a s IH]; simpl.
  - now destruct t.
  - destruct (ascii_dec a a); [exact IH | congruence].
Qed.

Lemma contains_here (s t : string) : contains (s +:+ t) s = true.
Proof.
  destruct s as [|a s]; simpl.
  - now destruct t.
  - apply orb_true_iff; left.
    destruct (ascii_dec a a); [apply prefix_append | congruence].
Qed.

Lemma contains_skip (pre hay needle : string) :
  contains hay needle = true -> contains (pre +:+ hay) needle = true.
Proof.
  intros H. induction pre as [|a pre IH]; simpl.
  - exact H.
  - apply orb_true_iff; right. exact IH.
Qed.

Lemma contains_middle (pre s post : string) :
  contains (pre +:+ s +:+ post) s = true.
Proof. apply contains_skip, contains_here. Qed.

(** ** The variant registry *)

Lemma supported_variant_cases (variant : string) :
  In variant supported_variants <->
  variant = "1b" \/ variant = "2b" \/ variant = "2b-v2" \/ variant = "4b"
  \/ variant = "7b" \/ variant = "9b" \/ variant = "12b" \/ variant = "27b"
  \/ variant = "27b_v3".
Proof. unfold supported_variants; simpl; intuition congruence. Qed.

(** Case analysis along the [if]/[elif] chain of [get_model_config]. *)
Ltac variant_chain variant :=
  unfold get_model_config;
  repeat match goal with
    | |- context [String.eqb variant ?name] =>
        destruct (String.eqb_spec variant name) as [->|?]
    end.

Lemma get_model_config_inr (variant dtype : string) (cfg : GemmaConfig) :
  get_model_config variant dtype = inr cfg ->
  (variant = "7b" /\ cfg = get_config_for_7b dtype)
  \/ (variant = "2b" /\ cfg = get_config_for_2b dtype)
  \/ (variant = "2b-v2" /\ cfg = get_config_for_2b_v2 dtype)
  \/ (variant = "9b" /\ cfg = get_config_for_9b dtype)
  \/ (variant = "27b" /\ cfg = get_config_for_27b dtype)
  \/ (variant = "1b" /\ cfg = get_config_for_1b dtype)
  \/ (variant = "4b" /\ cfg = get_config_for_4b dtype)
  \/ (variant = "12b" /\ cfg = get_config_for_12b dtype)
  \/ (variant = "27b_v3" /\ cfg = get_config_for_27b_v3 dtype).
Proof.
  variant_chain variant; intros H; inversion H; subst; tauto.
Qed.

(** C2. A variant outside the nine registered names raises a [ValueError]
    whose message contains the offending string and each of the nine names
    between double quotes; each registered name yields a configuration. *)
Theorem get_model_config_variants (variant dtype : string) :
  (In variant supported_variants ->
     exists cfg, get_model_config variant dtype = inr cfg)
  /\ (~ In variant supported_variants ->
     exists msg,
       get_model_config variant dtype = inl (ValueError msg)
       /\ contains msg variant = true
       /\ forall name, In name supported_variants ->
                       contains msg (quoted name) = true).
Proof.
  split.
  - rewrite supported_variant_cases.
    intros H; decompose [or] H; subst; eexists; reflexivity.
  - intros Hout. rewrite supported_variant_cases in Hout.
    exists (invalid_variant_message variant). split; [|split].
    + variant_chain variant; tauto.
    + unfold invalid_variant_message. apply contains_middle.
    + intros name Hin. unfold invalid_variant_message.
      do 2 apply contains_skip.
      rewrite supported_variant_cases in Hin.
      decompose [or] Hin; subst; vm_compute; reflexivity.
Qed.

Lemma get_model_config_variants_witness :
  (exists cfg, get_model_config "9b" "float16" = inr cfg)
  /\ (exists msg,
        get_model_config "3b" "float16" = inl (ValueError msg)
        /\ contains msg "3b" = true
        /\ forall name, In name supported_variants ->
                        contains msg (quoted name) = true).
Proof.
  split.
  - apply (proj1 (get_model_config_variants "9b" "float16")).
    simpl; tauto.
  - apply (proj2 (get_model_config_variants "3b" "float16")).
    simpl; intuition discriminate.
Defined.

(** C1, as written, fails at '1b': the schedule has six entries, the model
    twenty-six layers. *)
Lemma schedule_length_1b_differs :
  exists cfg l,
    get_model_config "1b" "bfloat16" = inr cfg
    /\ attn_types cfg = Some l
    /\ Z.of_nat (List.length l) = 6
    /\ num_hidden_layers cfg = 26.
Proof. do 2 eexists; repeat split. Qed.

(** C1, amended.  When the configuration of a variant has a schedule, either
    the variant is a Gemma 2 one and the schedule has one entry per layer, or
    it is a Gemma 3 one and the schedule is the six-entry pattern of five
    local layers and a global one, shorter than the layer count. *)
Theorem attn_schedule_length (variant dtype : string) (cfg : GemmaConfig)
    (l : list AttentionType) :
  get_model_config variant dtype = inr cfg ->
  attn_types cfg = Some l ->
  (architecture cfg = GEMMA_2
   /\ Z.of_nat (List.length l) = num_hidden_layers cfg)
  \/ (architecture cfg = GEMMA_3
      /\ l = gemma3_attn_types
      /\ Z.of_nat (List.length l) < num_hidden_layers cfg).
Proof.
  intros Hcfg Hl. apply get_model_config_inr in Hcfg.
  decompose [or and] Hcfg; subst; simpl in Hl; inversion Hl; subst;
    first [ left; split; reflexivity
          | right; repeat split; reflexivity ].
Qed.

Lemma attn_schedule_length_witness :
  (architecture (get_config_for_9b "bfloat16") = GEMMA_2
   /\ Z.of_nat (List.length (seq_mul [LOCAL_SLIDING; GLOBAL] 21))
      = num_hidden_layers (get_config_for_9b "bfloat16"))
  \/ (architecture (get_config_for_9b "bfloat16") = GEMMA_3
      /\ seq_mul [LOCAL_SLIDING; GLOBAL] 21 = gemma3_attn_types
      /\ Z.of_nat (List.length (seq_mul [LOCAL_SLIDING; GLOBAL] 21))
         < num_hidden_layers (get_config_for_9b "bfloat16")).
Proof.
  apply (attn_schedule_length "9b" "bfloat16"); reflexivity.
Defined.

(** C9. A configuration of the registry whose schedule has a
    [LOCAL_SLIDING] entry has a sliding window size. *)
Theorem local_sliding_has_window (variant dtype : string) (cfg : GemmaConfig)
    (l : list AttentionType) :
  get_model_config variant dtype = inr cfg ->
  attn_types cfg = Some l ->
  In LOCAL_SLIDING l ->
  sliding_window_size cfg <> None.
Proof.
  intros Hcfg Hl _. apply get_model_config_inr in Hcfg.
  decompose [or and] Hcfg; subst; simpl in *; congruence.
Qed.

Lemma local_sliding_has_window_witness :
  sliding_window_size (get_config_for_27b_v3 "float32") <> None.
Proof.
  apply (local_sliding_has_window "27b_v3" "float32" _ gemma3_attn_types).
  - reflexivity.
  - reflexivity.
  - simpl; tauto.
Defined.

(** C8. [get_dtype] sends the four strings of the table to their element
    type and every other string to [None]; being a dictionary [get] with a
    default, it has no failing case. *)
Theorem get_dtype_mapping (cfg : GemmaConfig) :
  (dtype cfg = "float16" -> get_dtype cfg = Some torch_float16)
  /\ (dtype cfg = "float" -> get_dtype cfg = Some torch_float32)
  /\ (dtype cfg = "float32" -> get_dtype cfg = Some torch_float32)
  /\ (dtype cfg = "bfloat16" -> get_dtype cfg = Some torch_bfloat16)
  /\ (~ In (dtype cfg) ["float16"; "float"; "float32"; "bfloat16"] ->
      get_dtype cfg = None).
Proof.
  unfold get_dtype, _STR_DTYPE_TO_TORCH_DTYPE.
  repeat split; try (intros ->; reflexivity).
  simpl. intros Hout.
  rewrite !lookup_insert_ne by (intros E; apply Hout; rewrite <- E; tauto).
  apply lookup_empty.
Qed.

Lemma get_dtype_mapping_witness :
  get_dtype (get_config_for_2b "float") = Some torch_float32
  /\ get_dtype (get_config_for_2b "int8") = None.
Proof.
  destruct (get_dtype_mapping (get_config_for_2b "float")) as (_ & Hf & _).
  destruct (get_dtype_mapping (get_config_for_2b "int8")) as (_ & _ & _ & _ & Hn).
  split.
  - apply Hf. reflexivity.
  - apply Hn. simpl; intuition discriminate.
Defined.

(** ** Methods that only read their object *)

Import siglip_vision_config siglip_vision_model torch.

Lemma read_only_ret {S A : Type} (a : A) : read_only (mret a : M S A).
Proof. intros self; reflexivity. Qed.

Lemma read_only_raise {S A : Type} (e : exn) : read_only (raise e : M S A).
Proof. intros self; reflexivity. Qed.

Lemma read_only_attr {S A : Type} (name : S -> A) : read_only (attr name).
Proof. intros self; reflexivity. Qed.

Lemma read_only_torch_call {S A : Type} (o : option A) :
  read_only (torch_call o : M S A).
Proof. intros self; destruct o; reflexivity. Qed.

Lemma read_only_bind {S A B : Type} (m : M S A) (f : A -> M S B) :
  read_only m -> (forall a, read_only (f a)) -> read_only (m ≫= f).
Proof.
  intros Hm Hf self. unfold mbind, M_bind.
  specialize (Hm self). destruct (m self) as [[e|a] self']; simpl in *; subst.
  - reflexivity.
  - apply Hf.
Qed.

Lemma read_only_call {S T A : Type} (name : S -> T) (set_name : T -> S -> S)
    (method : M T A) :
  read_only method ->
  (forall self, set_name (name self) self = self) ->
  read_only (call name set_name method).
Proof.
  intros Hm Hset self. unfold call.
  specialize (Hm (name self)).
  destruct (method (name self)) as [r t]; simpl in *; subst. apply Hset.
Qed.

Lemma read_only_for_each {T A : Type} (body : A -> M T A) :
  (forall x, read_only (body x)) -> forall x, read_only (for_each body x).
Proof.
  intros Hbody x modules. revert x.
  induction modules as [|module rest IH]; intros x; simpl.
  - reflexivity.
  - specialize (Hbody x module).
    destruct (body x module) as [[e|x'] module']; simpl in *; subst.
    + reflexivity.
    + specialize (IH x'). destruct (for_each body x' rest) as [r rest'].
      simpl in *; subst. reflexivity.
Qed.

Lemma read_only_unpack3 {S : Type} (s : list Z) :
  read_only (unpack3 s : M S (Z * Z * Z)).
Proof.
  intros self. unfold unpack3.
  destruct s as [|a [|b [|c [|d s]]]]; reflexivity.
Qed.

(** The result of a sequence of statements, from the results of its parts. *)
Lemma run_bind {S A B : Type} (m : M S A) (f : A -> M S B) (self : S) :
  read_only m ->
  run (m ≫= f) self
  = match run m self with
    | inr a => run (f a) self
    | inl e => inl e
    end.
Proof.
  intros Hm. unfold run, mbind, M_bind. specialize (Hm self).
  destruct (m self) as [[e|a] self']; simpl in *; subst; reflexivity.
Qed.

Lemma run_call {S T A : Type} (name : S -> T) (set_name : T -> S -> S)
    (method : M T A) (self : S) :
  run (call name set_name method) self = run method (name self).
Proof.
  unfold run, call. now destruct (method (name self)).
Qed.

Lemma run_torch_call {S A : Type} (o : option A) (self : S) :
  run (torch_call o) self = torch_result o.
Proof. now destruct o. Qed.

Lemma run_attr {S A : Type} (name : S -> A) (self : S) :
  run (attr name) self = inr (name self).
Proof. reflexivity. Qed.

Lemma run_ret {S A : Type} (a : A) (self : S) :
  run (mret a : M S A) self = inr a.
Proof. reflexivity. Qed.

Create HintDb read_only.

#[export] Hint Resolve read_only_ret read_only_raise read_only_attr
  read_only_torch_call read_only_unpack3 : read_only.

(** Descends along the statements of a method. *)
Ltac read_only_step :=
  match goal with
  | |- read_only (mbind _ _) => apply read_only_bind; [|intros ?]
  | |- read_only (call _ _ _) =>
      apply read_only_call; [|intros []; reflexivity]
  | |- read_only (for_each _ _) => apply read_only_for_each; intros ?
  | |- read_only (if ?c then _ else _) => destruct c
  | |- read_only (let '(_, _) := ?p in _) => destruct p
  | |- read_only (match ?p with _ => _ end) => destruct p
  | |- read_only _ => solve [auto with read_only]
  end.

Section read_only_methods.
Context `{TensorData}.

Lemma Linear_forward_read_only (x : Tensor) :
  read_only (nn.Linear.forward x).
Proof. unfold nn.Linear.forward. repeat read_only_step. Qed.

Lemma LayerNorm_forward_read_only (x : Tensor) :
  read_only (nn.LayerNorm.forward x).
Proof. unfold nn.LayerNorm.forward. repeat read_only_step. Qed.

Lemma Conv2d_forward_read_only (x : Tensor) :
  read_only (nn.Conv2d.forward x).
Proof. unfold nn.Conv2d.forward. repeat read_only_step. Qed.

Lemma Embedding_forward_read_only (indices : Tensor) :
  read_only (nn.Embedding.forward indices).
Proof. unfold nn.Embedding.forward. repeat read_only_step. Qed.

Hint Resolve Linear_forward_read_only LayerNorm_forward_read_only
  Conv2d_forward_read_only Embedding_forward_read_only : read_only.

Lemma AveragePool2D_forward_read_only (x : Tensor) :
  read_only (AveragePool2D.forward x).
Proof. unfold AveragePool2D.forward. repeat read_only_step. Qed.

Lemma SiglipAttention_forward_read_only (x : Tensor) :
  read_only (SiglipAttention.forward x).
Proof. unfold SiglipAttention.forward. repeat read_only_step. Qed.

Lemma gelu_tanh_read_only (x : Tensor) : read_only (SiglipMLP.gelu_tanh x).
Proof. unfold SiglipMLP.gelu_tanh. repeat read_only_step. Qed.

Hint Resolve AveragePool2D_forward_read_only
  SiglipAttention_forward_read_only gelu_tanh_read_only : read_only.

Lemma SiglipMLP_forward_read_only (x : Tensor) :
  read_only (SiglipMLP.forward x).
Proof. unfold SiglipMLP.forward. repeat read_only_step. Qed.

Hint Resolve SiglipMLP_forward_read_only : read_only.

Lemma SiglipEncoderBlock_forward_read_only (x : Tensor) :
  read_only (SiglipEncoderBlock.forward x).
Proof. unfold SiglipEncoderBlock.forward. repeat read_only_step. Qed.

Hint Resolve SiglipEncoderBlock_forward_read_only : read_only.

Lemma SiglipVisionModel_forward_read_only (pixel_values : Tensor) :
  read_only (SiglipVisionModel.forward pixel_values).
Proof. unfold SiglipVisionModel.forward. repeat read_only_step. Qed.

End read_only_methods.

#[export] Hint Resolve Linear_forward_read_only LayerNorm_forward_read_only
  Conv2d_forward_read_only Embedding_forward_read_only
  AveragePool2D_forward_read_only SiglipAttention_forward_read_only
  gelu_tanh_read_only SiglipMLP_forward_read_only
  SiglipEncoderBlock_forward_read_only : read_only.

(** C7. Two calls of the forward pass on the same model object with the
    same pixels: the first leaves the object as it was, so the second runs
    on identical weights and buffers, and it returns the same outcome (the
    same tensor, or the same exception) and again leaves the object
    unchanged.  No statement of the pass draws a random number or assigns an
    attribute. *)
Theorem forward_deterministic `{TensorData} (model : SiglipVisionModel.t)
    (pixel_values : Tensor) :
  let first := SiglipVisionModel.forward pixel_values model in
  let second := SiglipVisionModel.forward pixel_values first.2 in
  first.2 = model /\ second.2 = model /\ second.1 = first.1.
Proof.
  intros first second.
  assert (Hfirst : first.2 = model)
    by apply SiglipVisionModel_forward_read_only.
  subst second. rewrite Hfirst. fold first. auto.
Qed.

(** ** Broadcasting and addition *)

Lemma broadcast_rev_comm (a b : list Z) :
  shape.broadcast_rev a b = shape.broadcast_rev b a.
Proof.
  revert b. induction a as [|x a IH]; intros [|y b]; simpl; try reflexivity.
  rewrite (IH b). destruct (shape.broadcast_rev b a) as [r|]; simpl.
  - repeat case_decide; subst; try reflexivity; congruence.
  - reflexivity.
Qed.

Lemma broadcast_comm (a b : list Z) :
  shape.broadcast a b = shape.broadcast b a.
Proof. unfold shape.broadcast. now rewrite broadcast_rev_comm. Qed.

Lemma broadcast_rev_same (a : list Z) : shape.broadcast_rev a a = Some a.
Proof.
  induction a as [|x a IH]; simpl; [reflexivity|].
  rewrite IH; simpl. now rewrite decide_True.
Qed.

Lemma broadcast_same (a : list Z) : shape.broadcast a a = Some a.
Proof.
  unfold shape.broadcast. rewrite broadcast_rev_same; simpl.
  now rewrite reverse_involutive.
Qed.

Lemma add_comm `{TensorData} (x y : Tensor) : add x y = add y x.
Proof.
  unfold add, pointwise2.
  rewrite (broadcast_comm (size x)), (add_data_comm (data x)). reflexivity.
Qed.

(** ** The encoder block *)

(** Rewrites the result of a sequence of statements into the result of its
    first statement followed by the rest. *)
Ltac run_step :=
  rewrite run_bind by (repeat read_only_step);
  rewrite ?run_call, ?run_torch_call, ?run_attr, ?run_ret.

(** C6. The block returns [x'' = x' + MLP(LayerNorm2(x'))] for
    [x' = x + SelfAttentionBlock(LayerNorm1(x))]: each sub-layer reads the
    normalized tensor, and each sum takes the tensor from before the
    normalization.  An exception raised by a layer or by a sum is the
    outcome on both sides. *)
Theorem encoder_block_pre_norm_residual `{TensorData}
    (block : SiglipEncoderBlock.t) (x : Tensor) :
  run (SiglipEncoderBlock.forward x) block = spec.EncoderBlock block x.
Proof.
  unfold SiglipEncoderBlock.forward, spec.EncoderBlock.
  unfold spec.LayerNorm1, spec.SelfAttentionBlock, spec.LayerNorm2, spec.MLP.
  run_step.
  destruct (run (nn.LayerNorm.forward x) _) as [e|normed]; [reflexivity|].
  run_step. simpl.
  destruct (run (SiglipAttention.forward normed) _) as [e|attended];
    [reflexivity|].
  run_step. simpl. rewrite (add_comm attended x).
  destruct (add x attended) as [x'|]; [|reflexivity]. simpl.
  run_step.
  destruct (run (nn.LayerNorm.forward x') _) as [e|normed']; [reflexivity|].
  run_step. simpl.
  destruct (run (SiglipMLP.forward normed') _) as [e|fed]; [reflexivity|].
  run_step. simpl. rewrite (add_comm fed x').
  destruct (add x' fed) as [x''|]; reflexivity.
Qed.

(** ** Sizes through the primitives *)

Section primitive_sizes.
Context `{TensorData}.

Lemma transpose_size (dim0 dim1 : Z) (x : Tensor) (s : list Z) :
  shape.transpose dim0 dim1 (size x) = Some s ->
  exists y, transpose dim0 dim1 x = Some y /\ size y = s.
Proof. intros Hs. unfold transpose. rewrite Hs. simpl. eauto. Qed.

Lemma reshape_size (target : list Z) (x : Tensor) :
  Forall (Z.le 0) target ->
  shape.numel target = shape.numel (size x) ->
  exists y, reshape target x = Some y /\ size y = target.
Proof.
  intros Hpos Hnumel. unfold reshape, shape.reshape.
  rewrite decide_True by auto. simpl. eauto.
Qed.

Lemma reshape_some (target : list Z) (x y : Tensor) :
  reshape target x = Some y -> size y = target.
Proof.
  unfold reshape, shape.reshape. case_decide; simpl; [|discriminate].
  now intros [= <-].
Qed.

Lemma flatten_size (start_dim : Z) (x : Tensor) (s : list Z) :
  shape.flatten start_dim (size x) = Some s ->
  exists y, flatten start_dim x = Some y /\ size y = s.
Proof. intros Hs. unfold flatten. rewrite Hs. simpl. eauto. Qed.

Lemma pointwise2_size (op : binary_op) (x y : Tensor) (s : list Z) :
  shape.broadcast (size x) (size y) = Some s ->
  exists z, pointwise2 op x y = Some z /\ size z = s.
Proof. intros Hs. unfold pointwise2. rewrite Hs. simpl. eauto. Qed.

Lemma matmul_size (a b : Tensor) (s : list Z) :
  shape.matmul (size a) (size b) = Some s ->
  exists y, matmul a b = Some y /\ size y = s.
Proof. intros Hs. unfold matmul. rewrite Hs. simpl. eauto. Qed.

Lemma softmax_size (x : Tensor) (dim : Z) (s : list Z) :
  shape.softmax dim (size x) = Some s ->
  exists y, F.softmax x dim = Some y /\ size y = s.
Proof. intros Hs. unfold F.softmax. rewrite Hs. simpl. eauto. Qed.

Lemma avg_pool2d_size (x : Tensor) (kernel_size stride : Z) (s : list Z) :
  shape.avg_pool2d kernel_size stride (size x) = Some s ->
  exists y, F.avg_pool2d x kernel_size stride = Some y /\ size y = s.
Proof. intros Hs. unfold F.avg_pool2d. rewrite Hs. simpl. eauto. Qed.

Lemma linear_size (x weight : Tensor) (bias : option Tensor) (s : list Z) :
  shape.linear (size x) (size weight) (size <$> bias) = Some s ->
  exists y, F.linear x weight bias = Some y /\ size y = s.
Proof. intros Hs. unfold F.linear. rewrite Hs. simpl. eauto. Qed.

Lemma layer_norm_size (x : Tensor) (normalized_shape : list Z)
    (weight bias : Tensor) (eps : float) (s : list Z) :
  shape.layer_norm normalized_shape (size x) (size weight) (size bias)
  = Some s ->
  exists y,
    F.layer_norm x normalized_shape weight bias eps = Some y /\ size y = s.
Proof. intros Hs. unfold F.layer_norm. rewrite Hs. simpl. eauto. Qed.

Lemma conv2d_size (x weight : Tensor) (bias : option Tensor) (stride : Z)
    (s : list Z) :
  shape.conv2d stride (size weight) (size <$> bias) (size x) = Some s ->
  exists y, F.conv2d x weight bias stride = Some y /\ size y = s.
Proof. intros Hs. unfold F.conv2d. rewrite Hs. simpl. eauto. Qed.

Lemma embedding_size (indices weight : Tensor) (s : list Z) :
  shape.embedding (size indices) (size weight) = Some s ->
  exists y, F.embedding indices weight = Some y /\ size y = s.
Proof. intros Hs. unfold F.embedding. rewrite Hs. simpl. eauto. Qed.

End primitive_sizes.

Lemma window_out_exact (len kernel : Z) :
  0 < kernel -> shape.window_out len kernel kernel = len / kernel.
Proof.
  intros Hk. unfold shape.window_out.
  replace (len - kernel) with (len + (-1) * kernel) by lia.
  rewrite Z.div_add by lia. lia.
Qed.

Lemma avg_pool2d_4x4 (n c h w : Z) :
  0 < c -> 4 <= h -> 4 <= w ->
  shape.avg_pool2d 4 4 [n; c; h; w] = Some [n; c; h / 4; w / 4].
Proof.
  intros Hc Hh Hw. unfold shape.avg_pool2d.
  rewrite !window_out_exact by lia.
  assert (1 <= h / 4) by (apply Z.div_le_lower_bound; lia).
  assert (1 <= w / 4) by (apply Z.div_le_lower_bound; lia).
  rewrite decide_True by lia. reflexivity.
Qed.

Lemma avg_pool2d_too_small (n c h w : Z) :
  h < 4 -> shape.avg_pool2d 4 4 [n; c; h; w] = None.
Proof.
  intros Hh. unfold shape.avg_pool2d.
  assert (shape.window_out h 4 4 < 1).
  { unfold shape.window_out.
    assert ((h - 4) / 4 < 0) by (apply Z.div_lt_upper_bound; lia). lia. }
  rewrite decide_False by lia. reflexivity.
Qed.

(** ** Average pooling *)

Lemma square_root_exact (n : Z) :
  Z.sqrt n * Z.sqrt n = n <-> exists w, n = w * w.
Proof.
  split.
  - intros Hn. exists (Z.sqrt n). lia.
  - intros [w ->].
    replace (w * w) with (Z.abs w * Z.abs w) by lia.
    rewrite Z.sqrt_square by lia. reflexivity.
Qed.

Lemma torch_result_not_value_error {A : Type} (o : option A) (msg : string) :
  torch_result o <> inl (ValueError msg).
Proof. destruct o; discriminate. Qed.

Section average_pool.
Context `{TensorData}.

(** The two branches of [AveragePool2D.forward] on a tensor with three
    dimensions: the explicit check, then five library calls. *)
Lemma AveragePool2D_forward_cases (self : AveragePool2D.t) (x : Tensor)
    (batch seq_len channels : Z) :
  size x = [batch; seq_len; channels] ->
  let width := Z.sqrt seq_len in
  run (AveragePool2D.forward x) self
  = if decide (width * width <> seq_len)
    then inl (ValueError (AveragePool2D.not_square_message seq_len))
    else torch_result
           (x ← transpose 1 2 x;
            x ← reshape [batch; channels; width; width] x;
            x ← F.avg_pool2d x 4 4;
            x ← flatten 2 x;
            transpose 1 2 x).
Proof.
  intros Hx width. unfold AveragePool2D.forward. rewrite Hx.
  run_step. simpl. unfold int_pow_half. fold width.
  destruct (decide (width * width <> seq_len)); [reflexivity|].
  run_step. destruct (transpose 1 2 x) as [x1|]; [simpl|reflexivity].
  run_step. destruct (reshape _ x1) as [x2|]; [simpl|reflexivity].
  run_step. destruct (F.avg_pool2d x2 4 4) as [x3|]; [simpl|reflexivity].
  run_step. destruct (flatten 2 x3) as [x4|]; [simpl|reflexivity].
  run_step. destruct (transpose 1 2 x4) as [x5|]; reflexivity.
Qed.

(** On a square grid of side at least four the pooling succeeds and keeps
    the whole windows only. *)
Lemma AveragePool2D_forward_size (self : AveragePool2D.t) (x : Tensor)
    (batch side channels : Z) :
  size x = [batch; side * side; channels] ->
  0 <= batch -> 0 < channels -> 4 <= side ->
  exists y,
    run (AveragePool2D.forward x) self = inr y
    /\ size y = [batch; (side / 4) * (side / 4); channels].
Proof.
  intros Hx Hb Hc Hs.
  rewrite (AveragePool2D_forward_cases self x _ _ _ Hx). simpl.
  rewrite Z.sqrt_square by lia.
  rewrite decide_False by (intros Hne; now apply Hne).
  destruct (transpose_size 1 2 x [batch; channels; side * side])
    as (x1 & -> & Hx1); [now rewrite Hx|]. simpl.
  destruct (reshape_size [batch; channels; side; side] x1)
    as (x2 & -> & Hx2).
  { repeat constructor; lia. }
  { rewrite Hx1. simpl. lia. }
  simpl.
  destruct (avg_pool2d_size x2 4 4 [batch; channels; side / 4; side / 4])
    as (x3 & -> & Hx3); [rewrite Hx2; now apply avg_pool2d_4x4|]. simpl.
  destruct (flatten_size 2 x3 [batch; channels; (side / 4) * (side / 4)])
    as (x4 & -> & Hx4).
  { rewrite Hx3. unfold shape.flatten. simpl. now rewrite Z.mul_1_r. }
  simpl.
  destruct (transpose_size 1 2 x4 [batch; (side / 4) * (side / 4); channels])
    as (x5 & -> & Hx5); [now rewrite Hx4|]. simpl.
  eauto.
Qed.

(** On a grid of side below four the pooling primitive has no whole
    window, and the forward pass raises. *)
Lemma AveragePool2D_small_grid (self : AveragePool2D.t) (x : Tensor)
    (batch side channels : Z) :
  size x = [batch; side * side; channels] ->
  0 <= side < 4 ->
  run (AveragePool2D.forward x) self = inl TorchError.
Proof.
  intros Hx Hs.
  rewrite (AveragePool2D_forward_cases self x _ _ _ Hx). simpl.
  rewrite Z.sqrt_square by lia.
  rewrite decide_False by (intros Hne; now apply Hne).
  destruct (transpose 1 2 x) as [x1|]; [simpl|reflexivity].
  destruct (reshape _ x1) as [x2|] eqn:Hreshape; [simpl|reflexivity].
  apply reshape_some in Hreshape.
  unfold F.avg_pool2d.
  rewrite Hreshape, avg_pool2d_too_small by lia. reflexivity.
Qed.

End average_pool.

(** C3. On a tensor of size (batch, seq_len, channels) the forward pass
    raises a [ValueError] exactly when seq_len is not a perfect square, and
    the message of that error contains the decimal writing of seq_len. *)
Theorem AveragePool2D_rejects_non_squares `{TensorData}
    (self : AveragePool2D.t) (x : Tensor) (batch seq_len channels : Z) :
  size x = [batch; seq_len; channels] ->
  ((exists msg, run (AveragePool2D.forward x) self = inl (ValueError msg))
   <-> ~ exists w, seq_len = w * w)
  /\ forall msg,
       run (AveragePool2D.forward x) self = inl (ValueError msg) ->
       contains msg (str seq_len) = true.
Proof.
  intros Hx. rewrite (AveragePool2D_forward_cases self x _ _ _ Hx). simpl.
  rewrite <- square_root_exact.
  destruct (decide (Z.sqrt seq_len * Z.sqrt seq_len <> seq_len)) as [Hne|Heq].
  - split.
    + split; [intros _; exact Hne | intros _; eauto].
    + intros msg Hmsg. inversion Hmsg.
      unfold AveragePool2D.not_square_message. apply contains_middle.
  - split.
    + split.
      * intros [msg Hmsg]. now apply torch_result_not_value_error in Hmsg.
      * intros Hne. contradiction.
    + intros msg Hmsg. now apply torch_result_not_value_error in Hmsg.
Qed.

Lemma AveragePool2D_rejects_non_squares_witness :
  ((exists msg,
      run (AveragePool2D.forward (sample.sized [1; 4097; 1]))
        {| AveragePool2D.config := sample.small_config |}
      = inl (ValueError msg))
   <-> ~ exists w, 4097 = w * w)
  /\ forall msg,
       run (AveragePool2D.forward (sample.sized [1; 4097; 1]))
         {| AveragePool2D.config := sample.small_config |}
       = inl (ValueError msg) ->
       contains msg (str 4097) = true.
Proof.
  apply (AveragePool2D_rejects_non_squares
           {| AveragePool2D.config := sample.small_config |}
           (sample.sized [1; 4097; 1]) 1 4097 1).
  reflexivity.
Defined.

(** The error raised on a sequence of length 4097 names 4097. *)
Example AveragePool2D_4097 :
  run (AveragePool2D.forward (sample.sized [1; 4097; 1]))
    {| AveragePool2D.config := sample.small_config |}
  = inl (ValueError
           "Sequence length 4097 is not a perfect square. Cannot reshape to a square image.").
Proof. vm_compute. reflexivity. Qed.

(** C10, as written, fails on a grid of side 1 (and of side 2 or 3, see
    [AveragePool2D_small_grid]): the pooling primitive raises, the
    calculated output being empty.  It also raises on a tensor without
    channels. *)
Lemma AveragePool2D_raises_on_small_grid :
  run (AveragePool2D.forward (sample.sized [1; 1 * 1; 1]))
    {| AveragePool2D.config := sample.small_config |}
  = inl TorchError
  /\ run (AveragePool2D.forward (sample.sized [1; 3 * 3; 1]))
       {| AveragePool2D.config := sample.small_config |}
     = inl TorchError
  /\ run (AveragePool2D.forward (sample.sized [1; 5 * 5; 0]))
       {| AveragePool2D.config := sample.small_config |}
     = inl TorchError.
Proof. repeat split; vm_compute; reflexivity. Qed.

(** C10, amended.  On a tensor of size (batch, s*s, channels) with at least
    one channel and [s >= 4] not divisible by 4, the forward pass raises
    nothing and returns a tensor of sequence length [floor(s/4)^2]; the
    windows cover [4 * floor(s/4) < s] rows and columns, so the trailing
    ones are left out, and no divisibility check intervenes. *)
Theorem AveragePool2D_floors_uneven_grid `{TensorData}
    (self : AveragePool2D.t) (x : Tensor) (batch s channels : Z) :
  size x = [batch; s * s; channels] ->
  0 <= batch -> 0 < channels ->
  4 <= s -> s mod 4 <> 0 ->
  exists y,
    run (AveragePool2D.forward x) self = inr y
    /\ size y = [batch; (s / 4) ^ 2; channels]
    /\ 4 * (s / 4) < s.
Proof.
  intros Hx Hb Hc Hs Hmod.
  destruct (AveragePool2D_forward_size self x batch s channels)
    as (y & Hy & Hsize); auto.
  exists y. rewrite Z.pow_2_r. repeat split; auto.
  pose proof (Z.div_mod s 4). pose proof (Z.mod_pos_bound s 4). lia.
Qed.

Lemma AveragePool2D_floors_uneven_grid_witness :
  exists y,
    run (AveragePool2D.forward (sample.sized [2; 6 * 6; 3]))
      {| AveragePool2D.config := sample.small_config |}
    = inr y
    /\ size y = [2; (6 / 4) ^ 2; 3]
    /\ 4 * (6 / 4) < 6.
Proof.
  apply (AveragePool2D_floors_uneven_grid
           {| AveragePool2D.config := sample.small_config |}
           (sample.sized [2; 6 * 6; 3]) 2 6 3).
  - reflexivity.
  - lia.
  - lia.
  - lia.
  - vm_compute. discriminate.
Defined.

(** ** Sizes through the layers *)

Lemma linear_3d (b n i o : Z) :
  shape.linear [b; n; i] [o; i] (Some [o]) = Some [b; n; o].
Proof.
  unfold shape.linear. simpl. rewrite decide_True by auto. reflexivity.
Qed.

Lemma layer_norm_3d (b n d : Z) :
  shape.layer_norm [d] [b; n; d] [d] [d] = Some [b; n; d].
Proof.
  unfold shape.layer_norm. simpl.
  rewrite decide_True by (repeat split; auto with lia). reflexivity.
Qed.

Lemma matmul_4d (b h n m p : Z) :
  shape.matmul [b; h; n; m] [b; h; m; p] = Some [b; h; n; p].
Proof.
  unfold shape.matmul. simpl. rewrite decide_True by reflexivity.
  change (take 2 [b; h; n; m]) with [b; h].
  change (take 2 [b; h; m; p]) with [b; h].
  now rewrite broadcast_same.
Qed.

Section layer_sizes.
Context `{TensorData}.

Lemma Linear_forward_size (self : nn.Linear.t) (x : Tensor)
    (in_features out_features b n : Z) :
  nn.Linear.initialized in_features out_features self ->
  size x = [b; n; in_features] ->
  exists y,
    run (nn.Linear.forward x) self = inr y
    /\ size y = [b; n; out_features].
Proof.
  intros [Hw Hb] Hx. unfold nn.Linear.forward.
  run_step. simpl. run_step. simpl. rewrite run_torch_call.
  destruct (linear_size x (nn.Linear.weight self) (nn.Linear.bias self)
              [b; n; out_features]) as (y & -> & Hy).
  { rewrite Hx, Hw, Hb. apply linear_3d. }
  simpl. eauto.
Qed.

Lemma LayerNorm_forward_size (self : nn.LayerNorm.t) (x : Tensor)
    (dim b n : Z) (epsilon : float) :
  nn.LayerNorm.initialized dim epsilon self ->
  size x = [b; n; dim] ->
  exists y,
    run (nn.LayerNorm.forward x) self = inr y /\ size y = [b; n; dim].
Proof.
  intros (Hshape & _ & Hw & Hb) Hx. unfold nn.LayerNorm.forward.
  do 4 (run_step; simpl). rewrite run_torch_call.
  destruct (layer_norm_size x (nn.LayerNorm.normalized_shape self)
              (nn.LayerNorm.weight self) (nn.LayerNorm.bias self)
              (nn.LayerNorm.eps self) [b; n; dim]) as (y & -> & Hy).
  { rewrite Hx, Hw, Hb, Hshape. apply layer_norm_3d. }
  simpl. eauto.
Qed.

End layer_sizes.

Lemma broadcast_scalar (s : list Z) : shape.broadcast [] s = Some s.
Proof.
  unfold shape.broadcast. simpl. now rewrite reverse_involutive.
Qed.

(** Takes the next statement of a method, whose outcome the lemma gives. *)
Tactic Notation "next" open_constr(lemma) "as" ident(y) ident(Hy) :=
  run_step; cbv beta iota zeta; unfold view, contiguous, to, add, mul;
  destruct lemma as (y & -> & Hy); [..|unfold torch_result; cbv beta iota zeta].

Section attention_sizes.
Context `{TensorData}.

(** The attention block returns a tensor of the size of its input, whatever
    the weights: every projection, split into heads, product and merge has
    operands of matching sizes. *)
Lemma SiglipAttention_forward_size (self : SiglipAttention.t) (x : Tensor)
    (dim heads head_dim b n : Z) :
  SiglipAttention.initialized dim heads head_dim self ->
  size x = [b; n; dim] ->
  0 <= b -> 0 <= n -> 0 <= heads -> 0 <= head_dim ->
  exists y,
    run (SiglipAttention.forward x) self = inr y /\ size y = [b; n; dim].
Proof.
  intros (_ & Hh & Hhd & Hk & Hq & Hv & Ho) Hx Hb Hn Hheads Hhead.
  unfold SiglipAttention.forward. rewrite Hx.
  run_step. simpl.
  assert (Hsplit : forall t : Tensor,
             size t = [b; n; heads * head_dim] ->
             exists y, reshape [b; n; heads; head_dim] t = Some y
                       /\ size y = [b; n; heads; head_dim]).
  { intros t Ht. apply reshape_size.
    - repeat constructor; lia.
    - rewrite Ht. simpl. lia. }
  next (Linear_forward_size _ x _ _ b n Hk Hx) as k0 Hk0.
  run_step. simpl. run_step. simpl. rewrite Hh, Hhd.
  next (Hsplit k0 Hk0) as k1 Hk1.
  next (Linear_forward_size _ x _ _ b n Hq Hx) as q0 Hq0.
  run_step. simpl. run_step. simpl. rewrite Hh, Hhd.
  next (Hsplit q0 Hq0) as q1 Hq1.
  next (Linear_forward_size _ x _ _ b n Hv Hx) as v0 Hv0.
  run_step. simpl. run_step. simpl. rewrite Hh, Hhd.
  next (Hsplit v0 Hv0) as v1 Hv1.
  next (transpose_size 1 2 k1 [b; heads; n; head_dim]) as k2 Hk2.
  { now rewrite Hk1. }
  next (transpose_size 1 2 q1 [b; heads; n; head_dim]) as q2 Hq2.
  { now rewrite Hq1. }
  next (transpose_size 1 2 v1 [b; heads; n; head_dim]) as v2 Hv2.
  { now rewrite Hv1. }
  next (transpose_size (-2) (-1) k2 [b; heads; head_dim; n]) as k_t Hk_t.
  { now rewrite Hk2. }
  next (matmul_size q2 k_t [b; heads; n; n]) as scores Hscores.
  { rewrite Hq2, Hk_t. apply matmul_4d. }
  run_step. simpl.
  next (softmax_size
          (pointwise (DivScalar (PowHalf (SiglipAttention.head_dim self)))
             scores)
          (-1) [b; heads; n; n]) as attn_weights Hweights.
  { simpl. now rewrite Hscores. }
  next (matmul_size attn_weights v2 [b; heads; n; head_dim])
    as attn_output Houtput.
  { rewrite Hweights, Hv2. apply matmul_4d. }
  next (transpose_size 1 2 attn_output [b; n; heads; head_dim])
    as attn_output' Houtput'.
  { now rewrite Houtput. }
  run_step. simpl. run_step. simpl. rewrite Hh, Hhd.
  next (reshape_size [b; n; heads * head_dim] attn_output')
    as merged Hmerged.
  { repeat constructor; lia. }
  { rewrite Houtput'. simpl. lia. }
  next (Linear_forward_size _ merged _ _ b n Ho Hmerged) as output Houtput''.
  rewrite run_ret. eauto.
Qed.

End attention_sizes.

Section block_sizes.
Context `{TensorData}.

Lemma gelu_tanh_size (self : SiglipMLP.t) (x : Tensor) :
  exists y, run (SiglipMLP.gelu_tanh x) self = inr y /\ size y = size x.
Proof.
  unfold SiglipMLP.gelu_tanh. cbv zeta.
  next (pointwise2_size Add x
          (pointwise (MulScalar (FloatLit 0.044715)) (pow x 3)) (size x))
    as inner Hinner.
  { apply broadcast_same. }
  next (pointwise2_size Mul (sqrt (tensor (2.0 / torch.pi))) inner (size x))
    as scaled Hscaled.
  { rewrite Hinner. apply broadcast_scalar. }
  rewrite run_torch_call. unfold mul.
  destruct (pointwise2_size Mul (pointwise (MulScalar (FloatLit 0.5)) x)
              (pointwise (AddScalar (IntLit 1)) (tanh scaled)) (size x))
    as (y & -> & Hy).
  { simpl. rewrite Hscaled. apply broadcast_same. }
  simpl. eauto.
Qed.

Lemma SiglipMLP_forward_size (self : SiglipMLP.t) (x : Tensor)
    (hidden_size intermediate_size b n : Z) :
  SiglipMLP.initialized hidden_size intermediate_size self ->
  size x = [b; n; hidden_size] ->
  exists y,
    run (SiglipMLP.forward x) self = inr y /\ size y = [b; n; hidden_size].
Proof.
  intros [Hfc1 Hfc2] Hx. unfold SiglipMLP.forward.
  next (Linear_forward_size _ x _ _ b n Hfc1 Hx) as expanded Hexpanded.
  next (gelu_tanh_size self expanded) as activated Hactivated.
  rewrite Hexpanded in Hactivated.
  next (Linear_forward_size _ activated _ _ b n Hfc2 Hactivated)
    as contracted Hcontracted.
  rewrite run_ret. eauto.
Qed.

Lemma EncoderBlock_size (cfg : SiglipVisionModelConfig)
    (block : SiglipEncoderBlock.t) (x : Tensor) (b n : Z) :
  SiglipEncoderBlock.initialized cfg block ->
  size x = [b; n; embedding_dim cfg] ->
  0 <= b -> 0 <= n -> 0 <= num_attention_heads cfg -> 0 <= head_dim cfg ->
  exists y,
    run (SiglipEncoderBlock.forward x) block = inr y
    /\ size y = [b; n; embedding_dim cfg].
Proof.
  intros (Hattn & Hln1 & Hmlp & Hln2) Hx Hb Hn Hheads Hhead.
  unfold SiglipEncoderBlock.forward.
  next (LayerNorm_forward_size _ x _ b n _ Hln1 Hx) as normed Hnormed.
  next (SiglipAttention_forward_size _ normed _ _ _ b n Hattn Hnormed)
    as attended Hattended; auto.
  next (pointwise2_size Add attended x [b; n; embedding_dim cfg])
    as x' Hx'.
  { rewrite Hx, Hattended. apply broadcast_same. }
  next (LayerNorm_forward_size _ x' _ b n _ Hln2 Hx') as normed' Hnormed'.
  next (SiglipMLP_forward_size _ normed' _ _ b n Hmlp Hnormed') as fed Hfed.
  next (pointwise2_size Add fed x' [b; n; embedding_dim cfg]) as x'' Hx''.
  { rewrite Hx', Hfed. apply broadcast_same. }
  rewrite run_ret. eauto.
Qed.

Lemma run_for_each_cons {T A : Type} (body : A -> M T A) (x : A)
    (module : T) (rest : list T) :
  run (for_each body x) (module :: rest)
  = match run (body x) module with
    | inr x' => run (for_each body x') rest
    | inl e => inl e
    end.
Proof.
  unfold run. simpl.
  destruct (body x module) as [[e|x'] module']; simpl; [reflexivity|].
  now destruct (for_each body x' rest).
Qed.

(** The loop over the blocks returns what the stack of the specification
    returns. *)
Lemma for_each_block_stack (blocks : list SiglipEncoderBlock.t)
    (x : Tensor) :
  run (for_each SiglipEncoderBlock.forward x) blocks
  = spec.EncoderStack blocks x.
Proof.
  revert x. induction blocks as [|block rest IH]; intros x.
  - reflexivity.
  - rewrite run_for_each_cons. simpl.
    destruct (run (SiglipEncoderBlock.forward x) block) as [e|x'];
      [reflexivity|apply IH].
Qed.

Lemma EncoderStack_size (cfg : SiglipVisionModelConfig)
    (blocks : list SiglipEncoderBlock.t) (x : Tensor) (b n : Z) :
  Forall (SiglipEncoderBlock.initialized cfg) blocks ->
  size x = [b; n; embedding_dim cfg] ->
  0 <= b -> 0 <= n -> 0 <= num_attention_heads cfg -> 0 <= head_dim cfg ->
  exists y,
    spec.EncoderStack blocks x = inr y /\ size y = [b; n; embedding_dim cfg].
Proof.
  intros Hblocks. revert x.
  induction Hblocks as [|block rest Hblock _ IH]; intros x Hx Hb Hn Hh Hd.
  - simpl. eauto.
  - simpl.
    destruct (EncoderBlock_size cfg block x b n) as (x' & -> & Hx'); auto.
    simpl. now apply IH.
Qed.

End block_sizes.

(** ** The vision tower *)

Lemma conv2d_patches (n c e p image : Z) (bias : option (list Z)) :
  0 < p <= image ->
  bias = None \/ bias = Some [e] ->
  shape.conv2d p [e; c; p; p] bias [n; c; image; image]
  = Some [n; e; image / p; image / p].
Proof.
  intros Hp Hbias. unfold shape.conv2d.
  rewrite decide_True by (repeat split; auto; lia).
  now rewrite window_out_exact by lia.
Qed.

Lemma position_ids_size `{TensorData} (n : Z) (ids : Tensor) :
  0 <= n ->
  Some ids = (arange n ≫= expand [1; -1]) ->
  size ids = [1; n].
Proof.
  intros Hn. unfold arange, shape.arange.
  rewrite decide_True by assumption. simpl. unfold expand. simpl.
  change (shape.expand [1; -1] [n]) with (Some [1; n]). simpl.
  now intros [= ->].
Qed.

Lemma broadcast_rev_cons_same (x : Z) (a b r : list Z) :
  shape.broadcast_rev a b = Some r ->
  shape.broadcast_rev (x :: a) (x :: b) = Some (x :: r).
Proof. intros Hr. simpl. rewrite Hr. simpl. now rewrite decide_True. Qed.

Lemma broadcast_batch (b n e : Z) :
  shape.broadcast [b; n; e] [1; n; e] = Some [b; n; e].
Proof.
  unfold shape.broadcast.
  change (reverse [b; n; e]) with [e; n; b].
  change (reverse [1; n; e]) with [e; n; 1].
  rewrite (broadcast_rev_cons_same e _ _ [n; b]); [reflexivity|].
  apply broadcast_rev_cons_same. simpl.
  destruct (decide (b = 1)) as [->|Hb]; reflexivity.
Qed.

Section vision_tower.
Context `{TensorData}.

(** The forward pass returns what the composition of the components
    returns, stage by stage and in their order. *)
Lemma forward_is_pipeline (model : SiglipVisionModel.t)
    (pixel_values : Tensor) :
  run (SiglipVisionModel.forward pixel_values) model
  = spec.VisionTower model pixel_values.
Proof.
  unfold SiglipVisionModel.forward, spec.VisionTower.
  unfold spec.PatchEmbedding, spec.AddPositionEmbedding, spec.FinalNorm,
    spec.AveragePool2D, to.
  run_step.
  destruct (run (nn.Conv2d.forward pixel_values) _) as [e|x0];
    [reflexivity|]. simpl.
  run_step. destruct (flatten 2 x0) as [x1|]; [simpl|reflexivity].
  run_step. destruct (transpose 1 2 x1) as [x2|]; [simpl|reflexivity].
  run_step. simpl. run_step.
  destruct (run (nn.Embedding.forward _) _) as [e|embeddings];
    [reflexivity|]. simpl.
  run_step. destruct (add x2 embeddings) as [x3|]; [simpl|reflexivity].
  run_step. rewrite for_each_block_stack.
  destruct (spec.EncoderStack _ x3) as [e|x4]; [reflexivity|]. simpl.
  run_step.
  destruct (run (nn.LayerNorm.forward x4) _) as [e|x5]; [reflexivity|].
  simpl. apply run_call.
Qed.

Lemma PatchEmbedding_size (cfg : SiglipVisionModelConfig)
    (model : SiglipVisionModel.t) (pixel_values : Tensor) (batch : Z) :
  SiglipVisionModel.initialized cfg model ->
  size pixel_values
  = [batch; input_channels cfg; image_size cfg; image_size cfg] ->
  0 < conv2d_patch_size cfg <= image_size cfg ->
  exists y,
    spec.PatchEmbedding model pixel_values = inr y
    /\ size y = [batch; SiglipVisionModel.num_patches model;
                 embedding_dim cfg].
Proof.
  intros ((Hw & Hstride & Hbias) & Hpatches & _) Hx Hp.
  unfold spec.PatchEmbedding, nn.Conv2d.forward.
  do 3 (run_step; simpl). rewrite run_torch_call.
  set (grid := image_size cfg / conv2d_patch_size cfg).
  destruct (conv2d_size pixel_values
              (nn.Conv2d.weight (SiglipVisionModel.patch_embedding model))
              (nn.Conv2d.bias (SiglipVisionModel.patch_embedding model))
              (nn.Conv2d.stride (SiglipVisionModel.patch_embedding model))
              [batch; embedding_dim cfg; grid; grid]) as (x0 & -> & Hx0).
  { rewrite Hx, Hw, Hstride, Hbias. apply conv2d_patches; [lia|].
    destruct (embedding_use_bias cfg); auto. }
  simpl.
  destruct (flatten_size 2 x0
              [batch; embedding_dim cfg;
               SiglipVisionModel.num_patches model]) as (x1 & -> & Hx1).
  { rewrite Hx0, Hpatches. unfold shape.flatten. simpl. fold grid.
    now rewrite Z.pow_2_r, Z.mul_1_r. }
  simpl.
  destruct (transpose_size 1 2 x1
              [batch; SiglipVisionModel.num_patches model;
               embedding_dim cfg]) as (x2 & -> & Hx2); [now rewrite Hx1|].
  simpl. eauto.
Qed.

Lemma AddPositionEmbedding_size (cfg : SiglipVisionModelConfig)
    (model : SiglipVisionModel.t) (x : Tensor) (batch : Z) :
  SiglipVisionModel.initialized cfg model ->
  size x = [batch; SiglipVisionModel.num_patches model; embedding_dim cfg] ->
  exists y,
    spec.AddPositionEmbedding model x = inr y /\ size y = size x.
Proof.
  intros (_ & Hpatches & Hpositions & Hemb & Hids & _) Hx.
  assert (Hsize : size (SiglipVisionModel.position_ids model)
                  = [1; SiglipVisionModel.num_patches model]).
  { rewrite <- Hpositions. apply position_ids_size; [|assumption].
    rewrite Hpositions, Hpatches. apply Z.pow_even_nonneg. now exists 1. }
  unfold spec.AddPositionEmbedding, nn.Embedding.forward.
  run_step. simpl. rewrite run_torch_call.
  destruct (embedding_size (SiglipVisionModel.position_ids model)
              (nn.Embedding.weight
                 (SiglipVisionModel.position_embedding model))
              [1; SiglipVisionModel.num_patches model; embedding_dim cfg])
    as (embeddings & -> & Hembeddings).
  { rewrite Hsize, Hemb. reflexivity. }
  simpl.
  destruct (pointwise2_size Add x embeddings (size x)) as (y & Hy & Hsum).
  { rewrite Hx, Hembeddings. apply broadcast_batch. }
  unfold add. rewrite Hy. simpl. eauto.
Qed.

(** The sizes along the pipeline, for a positive geometry whose grid of
    patches has a side of at least four. *)
Lemma VisionTower_size (cfg : SiglipVisionModelConfig)
    (model : SiglipVisionModel.t) (pixel_values : Tensor) (batch : Z) :
  SiglipVisionModel.initialized cfg model ->
  positive_geometry cfg ->
  size pixel_values
  = [batch; input_channels cfg; image_size cfg; image_size cfg] ->
  0 <= batch ->
  4 <= image_size cfg / conv2d_patch_size cfg ->
  exists y,
    spec.VisionTower model pixel_values = inr y
    /\ size y = [batch; (image_size cfg / conv2d_patch_size cfg / 4) ^ 2;
                 embedding_dim cfg].
Proof.
  intros Hinit (Hc & He & Hp & Hheads & Hhead & Hi) Hx Hb Hgrid.
  set (grid := image_size cfg / conv2d_patch_size cfg) in *.
  assert (Hfit : 0 < conv2d_patch_size cfg <= image_size cfg).
  { split; [assumption|].
    pose proof (Z.mul_div_le (image_size cfg) (conv2d_patch_size cfg) Hp).
    fold grid in H0. nia. }
  pose proof Hinit
    as (_ & Hpatches & _ & _ & _ & _ & Hblocks & Hnorm & _ & _).
  fold grid in Hpatches.
  unfold spec.VisionTower.
  destruct (PatchEmbedding_size cfg model pixel_values batch)
    as (x0 & -> & Hx0); auto. simpl.
  destruct (AddPositionEmbedding_size cfg model x0 batch)
    as (x1 & -> & Hx1); auto. simpl. rewrite Hx0 in Hx1.
  destruct (EncoderStack_size cfg (SiglipVisionModel.encoder_blocks model)
              x1 batch (SiglipVisionModel.num_patches model))
    as (x2 & -> & Hx2); auto; try lia.
  simpl. unfold spec.FinalNorm.
  destruct (LayerNorm_forward_size (SiglipVisionModel.final_norm model) x2
              (embedding_dim cfg) batch
              (SiglipVisionModel.num_patches model) (layer_norm_eps cfg))
    as (x3 & -> & Hx3); auto. simpl. unfold spec.AveragePool2D.
  rewrite Hpatches, Z.pow_2_r in Hx3.
  destruct (AveragePool2D_forward_size (SiglipVisionModel.avg_pool model) x3
              batch grid (embedding_dim cfg))
    as (y & -> & Hy); auto.
  exists y. split; [reflexivity|]. now rewrite Z.pow_2_r.
Qed.

End vision_tower.

(** A model built as the constructor builds it is initialized. *)
Lemma sample_initialized (cfg : SiglipVisionModelConfig) :
  SiglipVisionModel.initialized cfg (sample.VisionModel cfg).
Proof.
  unfold SiglipVisionModel.initialized, sample.VisionModel. simpl.
  repeat split.
  - now destruct (embedding_use_bias cfg).
  - unfold arange, shape.arange.
    rewrite decide_True by (apply Z.pow_even_nonneg; now exists 1).
    reflexivity.
  - apply length_replicate.
  - apply Forall_replicate. repeat split.
Qed.

(** C4.  The forward pass at a grid whose side is not a multiple of four
    does not return the [num_patches // 16] positions that the claim, and
    the comment on the last statement of [SiglipVisionModel.forward], give.
    With 12x12 images in 2x2 patches the model is initialized with 36
    patches; on pixels of size (2, 3, 12, 12) every stage succeeds and the
    pass returns a tensor of size (2, 1, 6): one position where [36 // 16]
    is two (and [36] is no multiple of sixteen). *)
Theorem vision_tower_grid_of_six :
  SiglipVisionModel.initialized sample.grid6_config
    (sample.VisionModel sample.grid6_config)
  /\ SiglipVisionModel.num_patches (sample.VisionModel sample.grid6_config)
     = 36
  /\ run (SiglipVisionModel.forward (sample.sized [2; 3; 12; 12]))
       (sample.VisionModel sample.grid6_config)
     = inr (sample.sized [2; 1; 6])
  /\ 1 <> 36 / 16
  /\ 1 * 16 <> 36.
Proof.
  split; [apply sample_initialized|].
  repeat split; try (vm_compute; reflexivity); vm_compute; discriminate.
Qed.

(** Where the forward pass agrees with its documentation.  For a model
    initialized from a configuration with a positive geometry and a grid of
    patches of side [g >= 4], and pixels of size
    (batch, channels, image_size, image_size): [num_patches] is [g^2]; the
    forward pass returns what PatchEmbedding, the addition of the
    PositionEmbedding, the blocks in order, the final normalization and
    AveragePool2D return when applied in this order; the pooling keeps
    [floor(g/4)^2] positions, which are the documented [num_patches // 16]
    as soon as four divides [g].  With image_size 896 and patch size 14
    there are 4096 patches and 256 output positions. *)
Lemma vision_tower_forward `{TensorData} (cfg : SiglipVisionModelConfig)
    (model : SiglipVisionModel.t) (pixel_values : Tensor) (batch : Z) :
  SiglipVisionModel.initialized cfg model ->
  positive_geometry cfg ->
  size pixel_values
  = [batch; input_channels cfg; image_size cfg; image_size cfg] ->
  0 <= batch ->
  4 <= grid_side cfg ->
  SiglipVisionModel.num_patches model = grid_side cfg ^ 2
  /\ run (SiglipVisionModel.forward pixel_values) model
     = spec.VisionTower model pixel_values
  /\ exists y,
       run (SiglipVisionModel.forward pixel_values) model = inr y
       /\ size y = [batch; (grid_side cfg / 4) ^ 2; embedding_dim cfg]
       /\ (grid_side cfg mod 4 = 0 ->
           (grid_side cfg / 4) ^ 2
           = SiglipVisionModel.num_patches model / 16)
       /\ (image_size cfg = 896 -> conv2d_patch_size cfg = 14 ->
           SiglipVisionModel.num_patches model = 4096
           /\ size y = [batch; 256; embedding_dim cfg]).
Proof.
  intros Hinit Hgeometry Hx Hb Hgrid.
  assert (Hpatches : SiglipVisionModel.num_patches model = grid_side cfg ^ 2)
    by apply Hinit.
  split; [exact Hpatches|].
  split; [apply forward_is_pipeline|].
  rewrite forward_is_pipeline.
  destruct (VisionTower_size cfg model pixel_values batch)
    as (y & Hy & Hsize); auto.
  exists y. repeat split; auto.
  - intros Hmod. rewrite Hpatches.
    apply Z.div_exact in Hmod; [|lia].
    rewrite Hmod at 2.
    replace ((4 * (grid_side cfg / 4)) ^ 2)
      with ((grid_side cfg / 4) ^ 2 * 16) by lia.
    now rewrite Z.div_mul.
  - rewrite Hpatches. unfold grid_side. now rewrite H0, H1.
  - rewrite Hsize. unfold grid_side. now rewrite H0, H1.
Qed.

Lemma vision_tower_forward_witness :
  SiglipVisionModel.num_patches (sample.VisionModel sample.small_config)
  = grid_side sample.small_config ^ 2
  /\ run (SiglipVisionModel.forward (sample.sized [2; 3; 8; 8]))
       (sample.VisionModel sample.small_config)
     = spec.VisionTower (sample.VisionModel sample.small_config)
         (sample.sized [2; 3; 8; 8])
  /\ exists y,
       run (SiglipVisionModel.forward (sample.sized [2; 3; 8; 8]))
         (sample.VisionModel sample.small_config) = inr y
       /\ size y = [2; (grid_side sample.small_config / 4) ^ 2;
                    embedding_dim sample.small_config]
       /\ (grid_side sample.small_config mod 4 = 0 ->
           (grid_side sample.small_config / 4) ^ 2
           = SiglipVisionModel.num_patches
               (sample.VisionModel sample.small_config) / 16)
       /\ (image_size sample.small_config = 896 ->
           conv2d_patch_size sample.small_config = 14 ->
           SiglipVisionModel.num_patches
             (sample.VisionModel sample.small_config) = 4096
           /\ size y = [2; 256; embedding_dim sample.small_config]).
Proof.
  apply (vision_tower_forward sample.small_config
           (sample.VisionModel sample.small_config)
           (sample.sized [2; 3; 8; 8]) 2).
  - apply sample_initialized.
  - unfold positive_geometry. simpl. lia.
  - reflexivity.
  - lia.
  - vm_compute. discriminate.
Defined.

(** The canonical geometry: 896x896 pixels in 14x14 patches give 4096
    patches and 256 pooled positions. *)
Example vision_tower_896 :
  SiglipVisionModel.num_patches
    (sample.VisionModel get_siglip_vision_model_config) = 4096
  /\ run (SiglipVisionModel.forward (sample.sized [1; 3; 896; 896]))
       (sample.VisionModel get_siglip_vision_model_config)
     = inr (sample.sized [1; 256; 1152]).
Proof. split; vm_compute; reflexivity. Qed.

(** * Further properties of the configurations *)

Lemma dtype_table_is_Some (name : string) :
  is_Some (_STR_DTYPE_TO_TORCH_DTYPE !! name)
  <-> In name ["float16"; "float"; "float32"; "bfloat16"].
Proof.
  unfold _STR_DTYPE_TO_TORCH_DTYPE. simpl.
  destruct (decide (name = "bfloat16")) as [->|H1].
  { rewrite lookup_insert_eq. split; [tauto|eauto]. }
  rewrite lookup_insert_ne by congruence.
  destruct (decide (name = "float32")) as [->|H2].
  { rewrite lookup_insert_eq. split; [tauto|eauto]. }
  rewrite lookup_insert_ne by congruence.
  destruct (decide (name = "float")) as [->|H3].
  { rewrite lookup_insert_eq. split; [tauto|eauto]. }
  rewrite lookup_insert_ne by congruence.
  destruct (decide (name = "float16")) as [->|H4].
  { rewrite lookup_insert_eq. split; [tauto|eauto]. }
  rewrite lookup_insert_ne by congruence.
  rewrite lookup_empty. split.
  - intros [? ?]. discriminate.
  - intros H. exfalso. decompose [or] H; congruence.
Qed.

(** X1. The configuration of a registered variant carries the dtype string
    it was asked for, whatever the string; its [get_dtype] is the entry of
    the table for that string, present exactly for the four names of the
    table.  No variant constructor inspects or rejects the dtype. *)
Theorem config_dtype_resolution (variant name : string) (cfg : GemmaConfig) :
  get_model_config variant name = inr cfg ->
  config.dtype cfg = name
  /\ get_dtype cfg = _STR_DTYPE_TO_TORCH_DTYPE !! name
  /\ (is_Some (get_dtype cfg)
      <-> In name ["float16"; "float"; "float32"; "bfloat16"]).
Proof.
  intros Hcfg. apply get_model_config_inr in Hcfg.
  assert (Hname : config.dtype cfg = name)
    by (decompose [or and] Hcfg; subst; reflexivity).
  unfold get_dtype. rewrite Hname.
  repeat split; auto; apply dtype_table_is_Some.
Qed.

Lemma config_dtype_resolution_witness :
  config.dtype (get_config_for_4b "int8") = "int8"
  /\ get_dtype (get_config_for_4b "int8")
     = _STR_DTYPE_TO_TORCH_DTYPE !! "int8"
  /\ (is_Some (get_dtype (get_config_for_4b "int8"))
      <-> In "int8" ["float16"; "float"; "float32"; "bfloat16"]).
Proof.
  apply (config_dtype_resolution "4b" "int8"). reflexivity.
Defined.

(** X2. In every registered configuration the key-value heads are at least
    one, at most the attention heads, and divide their number: the query
    heads split evenly into groups sharing a key-value head. *)
Theorem kv_heads_divide_heads (variant name : string) (cfg : GemmaConfig) :
  get_model_config variant name = inr cfg ->
  0 < num_key_value_heads cfg <= config.num_attention_heads cfg
  /\ config.num_attention_heads cfg mod num_key_value_heads cfg = 0.
Proof.
  intros Hcfg. apply get_model_config_inr in Hcfg.
  decompose [or and] Hcfg; subst; simpl; split; (lia || reflexivity).
Qed.

Lemma kv_heads_divide_heads_witness :
  0 < num_key_value_heads (get_config_for_9b "bfloat16")
    <= config.num_attention_heads (get_config_for_9b "bfloat16")
  /\ config.num_attention_heads (get_config_for_9b "bfloat16")
       mod num_key_value_heads (get_config_for_9b "bfloat16") = 0.
Proof.
  apply (kv_heads_divide_heads "9b" "bfloat16"). reflexivity.
Defined.

(** X3. The optional features follow the generation.  Gemma 1 has no
    schedule, window, softcap, feed-forward norm, QK norm, rope table or
    vision tower.  Gemma 2 has both softcaps (30 and 50), both feed-forward
    norms and a schedule, and neither QK norm nor a rope table.  Gemma 3 has
    no softcap, both feed-forward norms, QK norm and the rope table, with the
    262144-token vocabulary and its tokenizer; the other two generations
    keep the 256000-token vocabulary and the default tokenizer. *)
Theorem architecture_features (variant name : string) (cfg : GemmaConfig) :
  get_model_config variant name = inr cfg ->
  match architecture cfg with
  | GEMMA_1 =>
      attn_types cfg = None /\ sliding_window_size cfg = None
      /\ final_logit_softcapping cfg = None
      /\ attn_logit_softcapping cfg = None
      /\ use_pre_ffw_norm cfg = false /\ use_post_ffw_norm cfg = false
      /\ use_qk_norm cfg = false /\ rope_wave_length cfg = None
      /\ vision_config cfg = None
      /\ vocab_size cfg = 256000
      /\ tokenizer cfg = Some "tokenizer/tokenizer.model"
  | GEMMA_2 =>
      is_Some (attn_types cfg)
      /\ final_logit_softcapping cfg = Some 30.0%float
      /\ attn_logit_softcapping cfg = Some 50.0%float
      /\ use_pre_ffw_norm cfg = true /\ use_post_ffw_norm cfg = true
      /\ use_qk_norm cfg = false /\ rope_wave_length cfg = None
      /\ vision_config cfg = None
      /\ vocab_size cfg = 256000
      /\ tokenizer cfg = Some "tokenizer/tokenizer.model"
  | GEMMA_3 =>
      attn_types cfg = Some gemma3_attn_types
      /\ final_logit_softcapping cfg = None
      /\ attn_logit_softcapping cfg = None
      /\ use_pre_ffw_norm cfg = true /\ use_post_ffw_norm cfg = true
      /\ use_qk_norm cfg = true
      /\ rope_wave_length cfg = Some gemma3_rope_wave_length
      /\ vocab_size cfg = 262144
      /\ tokenizer cfg
         = Some "tokenizer/gemma3_cleaned_262144_v2.spiece.model"
  end.
Proof.
  intros Hcfg. apply get_model_config_inr in Hcfg.
  decompose [or and] Hcfg; subst; simpl; repeat split; eauto.
Qed.

Lemma architecture_features_witness :
  is_Some (attn_types (get_config_for_27b "float16"))
  /\ final_logit_softcapping (get_config_for_27b "float16") = Some 30.0%float
  /\ attn_logit_softcapping (get_config_for_27b "float16") = Some 50.0%float
  /\ use_pre_ffw_norm (get_config_for_27b "float16") = true
  /\ use_post_ffw_norm (get_config_for_27b "float16") = true
  /\ use_qk_norm (get_config_for_27b "float16") = false
  /\ rope_wave_length (get_config_for_27b "float16") = None
  /\ vision_config (get_config_for_27b "float16") = None
  /\ vocab_size (get_config_for_27b "float16") = 256000
  /\ tokenizer (get_config_for_27b "float16")
     = Some "tokenizer/tokenizer.model".
Proof.
  exact (architecture_features "27b" "float16"
           (get_config_for_27b "float16") eq_refl).
Defined.

(** Python's [l * n]: entry [i] of the repetition is entry [i mod len(l)]
    of [l]. *)
Lemma seq_mul_lookup {A : Type} (l : list A) (n : Z) (i : nat) :
  (i < Z.to_nat n * List.length l)%nat ->
  seq_mul l n !! i = l !! (i mod List.length l)%nat.
Proof.
  unfold seq_mul. generalize (Z.to_nat n) as k. intros k. revert i.
  induction k as [|k IH]; intros i Hi; simpl in *; [lia|].
  destruct (decide (i < List.length l)%nat) as [Hlt|Hge].
  - rewrite lookup_app_l by assumption. now rewrite Nat.mod_small.
  - rewrite lookup_app_r by lia. rewrite IH by lia. f_equal.
    replace i with (i - List.length l + 1 * List.length l)%nat at 2 by lia.
    rewrite Nat.Div0.mod_add. reflexivity.
Qed.

(** X4. The schedule of a Gemma 2 configuration alternates: layer [i], for
    every layer of the model, is LOCAL_SLIDING when [i] is even and GLOBAL
    when it is odd. *)
Theorem gemma2_schedule_alternates (variant name : string)
    (cfg : GemmaConfig) (l : list AttentionType) (i : Z) :
  get_model_config variant name = inr cfg ->
  architecture cfg = GEMMA_2 ->
  attn_types cfg = Some l ->
  0 <= i < config.num_hidden_layers cfg ->
  l !! Z.to_nat i = Some (if Z.even i then LOCAL_SLIDING else GLOBAL).
Proof.
  intros Hcfg Harch Hl Hi. apply get_model_config_inr in Hcfg.
  assert (Hrep : exists n, l = seq_mul [LOCAL_SLIDING; GLOBAL] n
                           /\ config.num_hidden_layers cfg = 2 * n
                           /\ 0 <= n).
  { decompose [or and] Hcfg; subst; simpl in *; try discriminate;
      injection Hl as <-; eexists; repeat split; lia. }
  destruct Hrep as (n & -> & Hlayers & Hn).
  rewrite seq_mul_lookup by (simpl; lia). simpl List.length.
  assert (Hmod : Z.of_nat (Z.to_nat i mod 2) = i mod 2).
  { rewrite Nat2Z.inj_mod, Z2Nat.id by lia. reflexivity. }
  rewrite Zmod_even in Hmod.
  destruct (Z.even i);
    [replace (Z.to_nat i mod 2)%nat with 0%nat by lia
    |replace (Z.to_nat i mod 2)%nat with 1%nat by lia]; reflexivity.
Qed.

Lemma gemma2_schedule_alternates_witness :
  seq_mul [LOCAL_SLIDING; GLOBAL] 13 !! Z.to_nat 7
  = Some (if Z.even 7 then LOCAL_SLIDING else GLOBAL).
Proof.
  apply (gemma2_schedule_alternates "2b-v2" "bfloat16"
           (get_config_for_2b_v2 "bfloat16")).
  - reflexivity.
  - reflexivity.
  - reflexivity.
  - simpl. lia.
Defined.

(** X5. The query scaling is set for '27b' and '27b_v3' only, and where it
    is set it is the width of the hidden state per attention head,
    [hidden_size // num_attention_heads]. *)
Theorem query_pre_attn_scalar_is_head_width (variant name : string)
    (cfg : GemmaConfig) :
  get_model_config variant name = inr cfg ->
  (is_Some (query_pre_attn_scalar cfg) <-> In variant ["27b"; "27b_v3"])
  /\ forall q, query_pre_attn_scalar cfg = Some q ->
               q = hidden_size cfg / config.num_attention_heads cfg.
Proof.
  intros Hcfg. apply get_model_config_inr in Hcfg.
  decompose [or and] Hcfg; subst; simpl; split;
    try (intros q [= <-]; reflexivity);
    try (split; [intros [? ?]; discriminate | intuition discriminate]);
    split; eauto; tauto.
Qed.

Lemma query_pre_attn_scalar_is_head_width_witness :
  (is_Some (query_pre_attn_scalar (get_config_for_27b_v3 "bfloat16"))
   <-> In "27b_v3" ["27b"; "27b_v3"])
  /\ forall q,
       query_pre_attn_scalar (get_config_for_27b_v3 "bfloat16") = Some q ->
       q = hidden_size (get_config_for_27b_v3 "bfloat16")
           / config.num_attention_heads (get_config_for_27b_v3 "bfloat16").
Proof.
  apply (query_pre_attn_scalar_is_head_width "27b_v3" "bfloat16").
  reflexivity.
Defined.

(** X6. Where a configuration has a table of rope wave lengths, the table
    has one positive entry for each attention type, hence for every entry
    of the schedule, and the local wave length is below the global one. *)
Theorem rope_wave_length_covers_schedule (variant name : string)
    (cfg : GemmaConfig) (table : list (AttentionType * Z)) :
  get_model_config variant name = inr cfg ->
  rope_wave_length cfg = Some table ->
  NoDup (table.*1)
  /\ (forall t : AttentionType, exists w, In (t, w) table /\ 0 < w)
  /\ forall local global,
       In (LOCAL_SLIDING, local) table -> In (GLOBAL, global) table ->
       local < global.
Proof.
  intros Hcfg Htable. apply get_model_config_inr in Hcfg.
  assert (table = gemma3_rope_wave_length) as ->
    by (decompose [or and] Hcfg; subst; simpl in *; congruence).
  unfold gemma3_rope_wave_length. repeat split.
  - simpl. apply NoDup_cons. split; [|apply NoDup_singleton].
    rewrite list_elem_of_singleton. discriminate.
  - intros [|]; eexists; split; simpl; eauto; lia.
  - simpl. intros local global Hl Hg.
    destruct Hl as [[= <-]|[[=]|[]]]. destruct Hg as [[=]|[[= <-]|[]]]. lia.
Qed.

Lemma rope_wave_length_covers_schedule_witness :
  NoDup (gemma3_rope_wave_length.*1)
  /\ (forall t : AttentionType,
        exists w, In (t, w) gemma3_rope_wave_length /\ 0 < w)
  /\ forall local global,
       In (LOCAL_SLIDING, local) gemma3_rope_wave_length ->
       In (GLOBAL, global) gemma3_rope_wave_length ->
       local < global.
Proof.
  apply (rope_wave_length_covers_schedule "1b" "bfloat16"
           (get_config_for_1b "bfloat16")); reflexivity.
Defined.

(** X7. A vision tower is configured for '4b', '12b' and '27b_v3' and for
    no other variant; these are also the variants with a rope scaling
    factor, which is 8, and their vision configuration is the one returned
    by [get_siglip_vision_model_config]. *)
Theorem vision_config_presence (variant name : string) (cfg : GemmaConfig) :
  get_model_config variant name = inr cfg ->
  (is_Some (vision_config cfg) <-> In variant ["4b"; "12b"; "27b_v3"])
  /\ (is_Some (vision_config cfg) <-> rope_scaling_factor cfg = Some 8)
  /\ (is_Some (vision_config cfg) <-> is_Some (rope_scaling_factor cfg))
  /\ forall v, vision_config cfg = Some v ->
               v = get_siglip_vision_model_config.
Proof.
  intros Hcfg. apply get_model_config_inr in Hcfg.
  decompose [or and] Hcfg; subst; simpl; repeat split;
    try (intros [? ?]; discriminate); try discriminate;
    try (intuition discriminate); eauto; try tauto;
    try (intros v [= <-]; reflexivity).
Qed.

Lemma vision_config_presence_witness :
  (is_Some (vision_config (get_config_for_1b "bfloat16"))
   <-> In "1b" ["4b"; "12b"; "27b_v3"])
  /\ (is_Some (vision_config (get_config_for_1b "bfloat16"))
      <-> rope_scaling_factor (get_config_for_1b "bfloat16") = Some 8)
  /\ (is_Some (vision_config (get_config_for_1b "bfloat16"))
      <-> is_Some (rope_scaling_factor (get_config_for_1b "bfloat16")))
  /\ forall v, vision_config (get_config_for_1b "bfloat16") = Some v ->
               v = get_siglip_vision_model_config.
Proof.
  apply (vision_config_presence "1b" "bfloat16"). reflexivity.
Defined.

(** X8. A sliding window, where there is one, is positive and no longer
    than the longest sequence of the configuration; it is set exactly when
    there is a schedule. *)
Theorem sliding_window_within_context (variant name : string)
    (cfg : GemmaConfig) :
  get_model_config variant name = inr cfg ->
  (is_Some (sliding_window_size cfg) <-> is_Some (attn_types cfg))
  /\ forall w, sliding_window_size cfg = Some w ->
               0 < w <= max_position_embeddings cfg.
Proof.
  intros Hcfg. apply get_model_config_inr in Hcfg.
  decompose [or and] Hcfg; subst; simpl; split;
    try (intros w [= <-]; lia); try (intros w [=]);
    split; intros [? ?]; try discriminate; eauto.
Qed.

Lemma sliding_window_within_context_witness :
  (is_Some (sliding_window_size (get_config_for_12b "bfloat16"))
   <-> is_Some (attn_types (get_config_for_12b "bfloat16")))
  /\ forall w, sliding_window_size (get_config_for_12b "bfloat16") = Some w ->
               0 < w <= max_position_embeddings (get_config_for_12b "bfloat16").
Proof.
  apply (sliding_window_within_context "12b" "bfloat16"). reflexivity.
Defined.

(** * Further properties of the vision tower *)

Section layer_rejections.
Context `{TensorData}.

Lemma Linear_forward_rejects (self : nn.Linear.t) (x : Tensor)
    (in_features out_features b n d : Z) :
  nn.Linear.initialized in_features out_features self ->
  size x = [b; n; d] ->
  d <> in_features ->
  run (nn.Linear.forward x) self = inl TorchError.
Proof.
  intros [Hw Hb] Hx Hd. unfold nn.Linear.forward.
  run_step. simpl. run_step. simpl. rewrite run_torch_call.
  unfold F.linear. rewrite Hx, Hw, Hb. unfold shape.linear. simpl.
  rewrite decide_False by (intros [? _]; contradiction). reflexivity.
Qed.

Lemma LayerNorm_forward_rejects (self : nn.LayerNorm.t) (x : Tensor)
    (dim b n d : Z) (epsilon : float) :
  nn.LayerNorm.initialized dim epsilon self ->
  size x = [b; n; d] ->
  d <> dim ->
  run (nn.LayerNorm.forward x) self = inl TorchError.
Proof.
  intros (Hshape & _ & Hw & Hb) Hx Hd. unfold nn.LayerNorm.forward.
  do 4 (run_step; simpl). rewrite run_torch_call.
  unfold F.layer_norm. rewrite Hx, Hw, Hb, Hshape.
  unfold shape.layer_norm. simpl.
  rewrite decide_False by (intros (_ & _ & _ & [= ?]); contradiction).
  reflexivity.
Qed.

End layer_rejections.

(** X9. The GELU approximation raises on no tensor, whatever its size, and
    returns a tensor of the size of its argument; it reads no attribute of
    the module, whose weights do not influence the value, and leaves the
    module as it is. *)
Theorem gelu_tanh_keeps_size `{TensorData} (x : Tensor) :
  exists y,
    size y = size x
    /\ forall self : SiglipMLP.t, SiglipMLP.gelu_tanh x self = (inr y, self).
Proof.
  eexists. split; cycle 1.
  - intros self.
    unfold SiglipMLP.gelu_tanh, add, mul, pointwise2, pow, tanh, sqrt,
      tensor, pointwise.
    simpl. rewrite broadcast_same. simpl.
    unfold mbind, M_bind, mret, M_ret. simpl.
    rewrite reverse_involutive, broadcast_same. reflexivity.
  - reflexivity.
Qed.

(** X10. A feed-forward module built for [hidden_size] returns, on a tensor
    of size (b, n, hidden_size), a tensor of the same size, whatever the
    intermediate size; on a tensor whose last dimension is another one, the
    first projection raises. *)
Theorem SiglipMLP_forward_sizes `{TensorData} (self : SiglipMLP.t)
    (x : Tensor) (hidden_size intermediate_size b n d : Z) :
  SiglipMLP.initialized hidden_size intermediate_size self ->
  size x = [b; n; d] ->
  (d = hidden_size ->
   exists y,
     run (SiglipMLP.forward x) self = inr y /\ size y = [b; n; hidden_size])
  /\ (d <> hidden_size -> run (SiglipMLP.forward x) self = inl TorchError).
Proof.
  intros Hinit Hx. split.
  - intros ->. now apply (SiglipMLP_forward_size self x _ intermediate_size).
  - intros Hd. destruct Hinit as [Hfc1 _]. unfold SiglipMLP.forward.
    run_step.
    now rewrite (Linear_forward_rejects _ x _ _ b n d Hfc1 Hx Hd).
Qed.

Lemma SiglipMLP_forward_sizes_witness :
  (6 = 6 ->
   exists y,
     run (SiglipMLP.forward (sample.sized [2; 16; 6])) (sample.MLP 6 5)
     = inr y
     /\ size y = [2; 16; 6])
  /\ (6 <> 6 ->
      run (SiglipMLP.forward (sample.sized [2; 16; 6])) (sample.MLP 6 5)
      = inl TorchError).
Proof.
  apply (SiglipMLP_forward_sizes (sample.MLP 6 5) (sample.sized [2; 16; 6])
           6 5 2 16 6).
  - repeat split.
  - reflexivity.
Defined.

(** X11. An attention module built for [dim] returns, on a tensor of size
    (b, n, dim), a tensor of the same size, for any number of heads and
    any head width (their product need not be [dim]: the output projection
    maps back); on a tensor whose last dimension is another one, the key
    projection raises. *)
Theorem SiglipAttention_forward_sizes `{TensorData}
    (self : SiglipAttention.t) (x : Tensor) (dim heads head_dim b n d : Z) :
  SiglipAttention.initialized dim heads head_dim self ->
  size x = [b; n; d] ->
  0 <= b -> 0 <= n -> 0 < heads -> 0 < head_dim ->
  (d = dim ->
   exists y,
     run (SiglipAttention.forward x) self = inr y /\ size y = [b; n; dim])
  /\ (d <> dim -> run (SiglipAttention.forward x) self = inl TorchError).
Proof.
  intros Hinit Hx Hb Hn Hheads Hhead. split.
  - intros ->.
    apply (SiglipAttention_forward_size self x dim heads head_dim);
      auto; lia.
  - intros Hd. destruct Hinit as (_ & _ & _ & Hk & _).
    unfold SiglipAttention.forward. rewrite Hx.
    run_step. simpl. run_step.
    now rewrite (Linear_forward_rejects _ x _ _ b n d Hk Hx Hd).
Qed.

Lemma SiglipAttention_forward_sizes_witness :
  (6 = 6 ->
   exists y,
     run (SiglipAttention.forward (sample.sized [2; 16; 6]))
       (sample.Attention 6 4 5) = inr y
     /\ size y = [2; 16; 6])
  /\ (6 <> 6 ->
      run (SiglipAttention.forward (sample.sized [2; 16; 6]))
        (sample.Attention 6 4 5) = inl TorchError).
Proof.
  apply (SiglipAttention_forward_sizes (sample.Attention 6 4 5)
           (sample.sized [2; 16; 6]) 6 4 5 2 16 6).
  - repeat split.
  - reflexivity.
  - lia.
  - lia.
  - lia.
  - lia.
Defined.

(** X12. A tensor whose number of dimensions is not three (an unbatched
    sequence, or an image still in four dimensions) makes the attention
    module and the pooling module raise a [ValueError], from the unpacking
    of its size, before any weight is read. *)
Theorem other_ranks_raise_value_error `{TensorData}
    (attention : SiglipAttention.t) (pool : AveragePool2D.t) (x : Tensor) :
  List.length (size x) <> 3%nat ->
  (exists msg,
     run (SiglipAttention.forward x) attention = inl (ValueError msg))
  /\ (exists msg,
        run (AveragePool2D.forward x) pool = inl (ValueError msg)).
Proof.
  intros Hrank.
  unfold SiglipAttention.forward, AveragePool2D.forward.
  destruct (size x) as [|a [|b [|c [|d s]]]]; simpl in Hrank;
    try contradiction;
    (split; run_step; simpl; eauto).
Qed.

Lemma other_ranks_raise_value_error_witness :
  (exists msg,
     run (SiglipAttention.forward (sample.sized [16; 6]))
       (sample.Attention 6 2 3) = inl (ValueError msg))
  /\ (exists msg,
        run (AveragePool2D.forward (sample.sized [16; 6]))
          {| AveragePool2D.config := sample.small_config |}
        = inl (ValueError msg)).
Proof.
  apply (other_ranks_raise_value_error (sample.Attention 6 2 3)
           {| AveragePool2D.config := sample.small_config |}
           (sample.sized [16; 6])).
  simpl. lia.
Defined.

(** X13. An encoder block built from a configuration returns, on a tensor
    of size (b, n, embedding_dim), a tensor of the same size, so that
    blocks can be stacked; on a tensor whose last dimension is another
    one, its first normalization raises. *)
Theorem SiglipEncoderBlock_forward_sizes `{TensorData}
    (cfg : SiglipVisionModelConfig) (block : SiglipEncoderBlock.t)
    (x : Tensor) (b n d : Z) :
  SiglipEncoderBlock.initialized cfg block ->
  positive_geometry cfg ->
  size x = [b; n; d] ->
  0 <= b -> 0 <= n ->
  (d = embedding_dim cfg ->
   exists y,
     run (SiglipEncoderBlock.forward x) block = inr y
     /\ size y = [b; n; embedding_dim cfg])
  /\ (d <> embedding_dim cfg ->
      run (SiglipEncoderBlock.forward x) block = inl TorchError).
Proof.
  intros Hinit (_ & _ & _ & Hheads & Hhead & _) Hx Hb Hn. split.
  - intros ->. apply (EncoderBlock_size cfg); auto; lia.
  - intros Hd. destruct Hinit as (_ & Hln1 & _).
    unfold SiglipEncoderBlock.forward. run_step.
    now rewrite (LayerNorm_forward_rejects _ x _ b n d _ Hln1 Hx Hd).
Qed.

Lemma SiglipEncoderBlock_forward_sizes_witness :
  (6 = embedding_dim sample.small_config ->
   exists y,
     run (SiglipEncoderBlock.forward (sample.sized [2; 16; 6]))
       (sample.EncoderBlock sample.small_config) = inr y
     /\ size y = [2; 16; embedding_dim sample.small_config])
  /\ (6 <> embedding_dim sample.small_config ->
      run (SiglipEncoderBlock.forward (sample.sized [2; 16; 6]))
        (sample.EncoderBlock sample.small_config) = inl TorchError).
Proof.
  apply (SiglipEncoderBlock_forward_sizes sample.small_config
           (sample.EncoderBlock sample.small_config)
           (sample.sized [2; 16; 6]) 2 16 6).
  - repeat split.
  - unfold positive_geometry. simpl. lia.
  - reflexivity.
  - lia.
  - lia.
Defined.

(** X14. On a grid of side [s >= 4] the pooled sequence has a length [L]
    with [16 * L <= s * s]; the bound is reached exactly when four divides
    [s], and then [L] is [seq_len // 16].  Batch and channels are kept. *)
Theorem AveragePool2D_output_length `{TensorData} (self : AveragePool2D.t)
    (x : Tensor) (batch s channels : Z) :
  size x = [batch; s * s; channels] ->
  0 <= batch -> 0 < channels -> 4 <= s ->
  exists y L,
    run (AveragePool2D.forward x) self = inr y
    /\ size y = [batch; L; channels]
    /\ 16 * L <= s * s
    /\ (16 * L = s * s <-> s mod 4 = 0)
    /\ (s mod 4 = 0 -> L = s * s / 16).
Proof.
  intros Hx Hb Hc Hs.
  destruct (AveragePool2D_forward_size self x batch s channels)
    as (y & Hy & Hsize); auto.
  exists y, (s / 4 * (s / 4)). repeat split; auto.
  - pose proof (Z.div_mod s 4). pose proof (Z.mod_pos_bound s 4). nia.
  - pose proof (Z.div_mod s 4). pose proof (Z.mod_pos_bound s 4). nia.
  - pose proof (Z.div_mod s 4). pose proof (Z.mod_pos_bound s 4). nia.
  - intros Hmod. apply Z.div_exact in Hmod; [|lia].
    rewrite Hmod at 3 4.
    replace (4 * (s / 4) * (4 * (s / 4))) with (s / 4 * (s / 4) * 16)
      by lia.
    now rewrite Z.div_mul.
Qed.

Lemma AveragePool2D_output_length_witness :
  exists y L,
    run (AveragePool2D.forward (sample.sized [2; 8 * 8; 3]))
      {| AveragePool2D.config := sample.small_config |} = inr y
    /\ size y = [2; L; 3]
    /\ 16 * L <= 8 * 8
    /\ (16 * L = 8 * 8 <-> 8 mod 4 = 0)
    /\ (8 mod 4 = 0 -> L = 8 * 8 / 16).
Proof.
  apply (AveragePool2D_output_length
           {| AveragePool2D.config := sample.small_config |}
           (sample.sized [2; 8 * 8; 3]) 2 8 3).
  - reflexivity.
  - lia.
  - lia.
  - lia.
Defined.

Lemma broadcast_mismatch (b m n e : Z) :
  m <> n -> m <> 1 -> n <> 1 -> shape.broadcast [b; m; e] [1; n; e] = None.
Proof.
  intros Hmn Hm Hn. unfold shape.broadcast.
  change (reverse [b; m; e]) with [e; m; b].
  change (reverse [1; n; e]) with [e; n; 1].
  simpl. destruct (decide (b = 1)); simpl;
    rewrite !decide_False by assumption; reflexivity.
Qed.

Section forward_stages.
Context `{TensorData}.

(** The patch embedding of a batch of images of any height and width: one
    position per whole patch. *)
Lemma PatchEmbedding_general (cfg : SiglipVisionModelConfig)
    (model : SiglipVisionModel.t) (pixel_values : Tensor)
    (batch height width : Z) :
  SiglipVisionModel.initialized cfg model ->
  size pixel_values = [batch; input_channels cfg; height; width] ->
  0 < conv2d_patch_size cfg <= height ->
  conv2d_patch_size cfg <= width ->
  exists y,
    spec.PatchEmbedding model pixel_values = inr y
    /\ size y = [batch;
                 height / conv2d_patch_size cfg
                 * (width / conv2d_patch_size cfg);
                 embedding_dim cfg].
Proof.
  intros ((Hw & Hstride & Hbias) & _) Hx Hh Hwd.
  unfold spec.PatchEmbedding, nn.Conv2d.forward.
  do 3 (run_step; simpl). rewrite run_torch_call.
  destruct (conv2d_size pixel_values
              (nn.Conv2d.weight (SiglipVisionModel.patch_embedding model))
              (nn.Conv2d.bias (SiglipVisionModel.patch_embedding model))
              (nn.Conv2d.stride (SiglipVisionModel.patch_embedding model))
              [batch; embedding_dim cfg; height / conv2d_patch_size cfg;
               width / conv2d_patch_size cfg]) as (x0 & -> & Hx0).
  { rewrite Hx, Hw, Hstride, Hbias. unfold shape.conv2d.
    rewrite decide_True, !window_out_exact by
      (try lia; repeat split; auto; try lia;
       destruct (embedding_use_bias cfg); auto).
    reflexivity. }
  simpl.
  destruct (flatten_size 2 x0
              [batch; embedding_dim cfg;
               height / conv2d_patch_size cfg
               * (width / conv2d_patch_size cfg)]) as (x1 & -> & Hx1).
  { rewrite Hx0. unfold shape.flatten. simpl. now rewrite Z.mul_1_r. }
  simpl.
  destruct (transpose_size 1 2 x1
              [batch;
               height / conv2d_patch_size cfg
               * (width / conv2d_patch_size cfg);
               embedding_dim cfg]) as (x2 & -> & Hx2); [now rewrite Hx1|].
  simpl. eauto.
Qed.

(** The convolution raises on other channels and on images smaller than a
    patch. *)
Lemma PatchEmbedding_rejects (cfg : SiglipVisionModelConfig)
    (model : SiglipVisionModel.t) (pixel_values : Tensor)
    (batch channels height width : Z) :
  SiglipVisionModel.initialized cfg model ->
  size pixel_values = [batch; channels; height; width] ->
  ~ (channels = input_channels cfg
     /\ 0 < conv2d_patch_size cfg <= height
     /\ conv2d_patch_size cfg <= width) ->
  spec.PatchEmbedding model pixel_values = inl TorchError.
Proof.
  intros ((Hw & Hstride & Hbias) & _) Hx Hno.
  unfold spec.PatchEmbedding, nn.Conv2d.forward.
  do 3 (run_step; simpl). rewrite run_torch_call.
  unfold F.conv2d. rewrite Hx, Hw, Hstride. unfold shape.conv2d.
  rewrite decide_False; [reflexivity|].
  intros (Hp & Hc & Hh & Hwd & _). apply Hno. repeat split; lia.
Qed.

(** The embeddings of the positions have one row per configured patch. *)
Lemma position_embeddings_size (cfg : SiglipVisionModelConfig)
    (model : SiglipVisionModel.t) :
  SiglipVisionModel.initialized cfg model ->
  exists embeddings,
    run (nn.Embedding.forward (SiglipVisionModel.position_ids model))
      (SiglipVisionModel.position_embedding model) = inr embeddings
    /\ size embeddings
       = [1; SiglipVisionModel.num_patches model; embedding_dim cfg].
Proof.
  intros (_ & Hpatches & Hpositions & Hemb & Hids & _).
  assert (Hsize : size (SiglipVisionModel.position_ids model)
                  = [1; SiglipVisionModel.num_patches model]).
  { rewrite <- Hpositions. apply position_ids_size; [|assumption].
    rewrite Hpositions, Hpatches. apply Z.pow_even_nonneg. now exists 1. }
  unfold nn.Embedding.forward. run_step. simpl. rewrite run_torch_call.
  destruct (embedding_size (SiglipVisionModel.position_ids model)
              (nn.Embedding.weight
                 (SiglipVisionModel.position_embedding model))
              [1; SiglipVisionModel.num_patches model; embedding_dim cfg])
    as (embeddings & -> & Hembeddings).
  { rewrite Hsize, Hemb. reflexivity. }
  simpl. eauto.
Qed.

(** From a sequence with one row per configured patch, the addition of the
    positions, the blocks and the final normalization succeed and keep the
    size. *)
Lemma encoder_size (cfg : SiglipVisionModelConfig)
    (model : SiglipVisionModel.t) (x : Tensor) (batch : Z) :
  SiglipVisionModel.initialized cfg model ->
  positive_geometry cfg ->
  size x = [batch; SiglipVisionModel.num_patches model; embedding_dim cfg] ->
  0 <= batch ->
  exists y,
    (x ← spec.AddPositionEmbedding model x;
     x ← spec.EncoderStack (SiglipVisionModel.encoder_blocks model) x;
     spec.FinalNorm model x) = inr y
    /\ size y = size x.
Proof.
  intros Hinit (_ & _ & _ & Hheads & Hhead & _) Hx Hb.
  pose proof Hinit
    as (_ & Hpatches & _ & _ & _ & _ & Hblocks & Hnorm & _ & _).
  destruct (AddPositionEmbedding_size cfg model x batch)
    as (x1 & -> & Hx1); auto. simpl. rewrite Hx in Hx1.
  destruct (EncoderStack_size cfg (SiglipVisionModel.encoder_blocks model)
              x1 batch (SiglipVisionModel.num_patches model))
    as (x2 & -> & Hx2); auto; try lia.
  simpl. unfold spec.FinalNorm.
  destruct (LayerNorm_forward_size (SiglipVisionModel.final_norm model) x2
              (embedding_dim cfg) batch
              (SiglipVisionModel.num_patches model) (layer_norm_eps cfg))
    as (x3 & -> & Hx3); auto.
  exists x3. split; [reflexivity|]. now rewrite Hx.
Qed.

End forward_stages.

(** X15. Pixels whose channel count is not the configured one make the
    forward pass raise, at the patch convolution. *)
Theorem forward_rejects_other_channels `{TensorData}
    (cfg : SiglipVisionModelConfig) (model : SiglipVisionModel.t)
    (pixel_values : Tensor) (batch channels height width : Z) :
  SiglipVisionModel.initialized cfg model ->
  size pixel_values = [batch; channels; height; width] ->
  channels <> input_channels cfg ->
  run (SiglipVisionModel.forward pixel_values) model = inl TorchError.
Proof.
  intros Hinit Hx Hc. rewrite forward_is_pipeline. unfold spec.VisionTower.
  rewrite (PatchEmbedding_rejects cfg model pixel_values _ _ _ _ Hinit Hx);
    [reflexivity|].
  intros (Heq & _). contradiction.
Qed.

Lemma forward_rejects_other_channels_witness :
  run (SiglipVisionModel.forward (sample.sized [2; 1; 8; 8]))
    (sample.VisionModel sample.small_config) = inl TorchError.
Proof.
  apply (forward_rejects_other_channels sample.small_config
           (sample.VisionModel sample.small_config)
           (sample.sized [2; 1; 8; 8]) 2 1 8 8).
  - apply sample_initialized.
  - reflexivity.
  - simpl. lia.
Defined.

(** X16. Images that do not yield the configured number of patches make
    the forward pass raise: the position embeddings have [num_patches]
    rows and cannot be added to a sequence of another length (lengths of 1
    apart, which broadcasting stretches). *)
Theorem forward_rejects_other_patch_counts `{TensorData}
    (cfg : SiglipVisionModelConfig) (model : SiglipVisionModel.t)
    (pixel_values : Tensor) (batch channels height width : Z) :
  SiglipVisionModel.initialized cfg model ->
  size pixel_values = [batch; channels; height; width] ->
  let patches :=
    height / conv2d_patch_size cfg * (width / conv2d_patch_size cfg) in
  patches <> SiglipVisionModel.num_patches model ->
  patches <> 1 ->
  SiglipVisionModel.num_patches model <> 1 ->
  run (SiglipVisionModel.forward pixel_values) model = inl TorchError.
Proof.
  intros Hinit Hx patches Hcount Hone Hone'.
  rewrite forward_is_pipeline. unfold spec.VisionTower.
  destruct (decide (channels = input_channels cfg
                    /\ 0 < conv2d_patch_size cfg <= height
                    /\ conv2d_patch_size cfg <= width))
    as [(-> & Hh & Hw)|Hno].
  - destruct (PatchEmbedding_general cfg model pixel_values _ _ _
                Hinit Hx Hh Hw) as (x0 & -> & Hx0).
    simpl. unfold spec.AddPositionEmbedding.
    destruct (position_embeddings_size cfg model Hinit)
      as (embeddings & -> & Hembeddings).
    simpl. unfold add, pointwise2.
    rewrite Hx0, Hembeddings. fold patches.
    now rewrite broadcast_mismatch.
  - now rewrite (PatchEmbedding_rejects cfg model pixel_values _ _ _ _
                   Hinit Hx Hno).
Qed.

Lemma forward_rejects_other_patch_counts_witness :
  run (SiglipVisionModel.forward (sample.sized [2; 3; 12; 12]))
    (sample.VisionModel sample.small_config) = inl TorchError.
Proof.
  apply (forward_rejects_other_patch_counts sample.small_config
           (sample.VisionModel sample.small_config)
           (sample.sized [2; 3; 12; 12]) 2 3 12 12).
  - apply sample_initialized.
  - reflexivity.
  - vm_compute. discriminate.
  - vm_compute. discriminate.
  - vm_compute. discriminate.
Defined.

(** X17. Images of any height and width that yield the configured number
    of patches are accepted, square or not: with a grid side of at least
    four the forward pass returns [floor(g/4)^2] positions, the patches
    being laid out again on the square grid whatever the rows and columns
    they came from. *)
Theorem forward_accepts_equal_patch_counts `{TensorData}
    (cfg : SiglipVisionModelConfig) (model : SiglipVisionModel.t)
    (pixel_values : Tensor) (batch height width : Z) :
  SiglipVisionModel.initialized cfg model ->
  positive_geometry cfg ->
  size pixel_values = [batch; input_channels cfg; height; width] ->
  0 <= batch ->
  conv2d_patch_size cfg <= height ->
  conv2d_patch_size cfg <= width ->
  height / conv2d_patch_size cfg * (width / conv2d_patch_size cfg)
  = SiglipVisionModel.num_patches model ->
  4 <= grid_side cfg ->
  exists y,
    run (SiglipVisionModel.forward pixel_values) model = inr y
    /\ size y = [batch; (grid_side cfg / 4) ^ 2; embedding_dim cfg].
Proof.
  intros Hinit Hgeometry Hx Hb Hh Hw Hcount Hgrid.
  assert (Hpatches : SiglipVisionModel.num_patches model
                     = grid_side cfg * grid_side cfg).
  { destruct Hinit as (_ & -> & _). apply Z.pow_2_r. }
  assert (Hp : 0 < conv2d_patch_size cfg) by apply Hgeometry.
  assert (He : 0 < embedding_dim cfg) by apply Hgeometry.
  rewrite forward_is_pipeline. unfold spec.VisionTower.
  destruct (PatchEmbedding_general cfg model pixel_values batch height width)
    as (x0 & -> & Hx0); auto.
  simpl. rewrite Hcount in Hx0.
  destruct (encoder_size cfg model x0 batch) as (x3 & Hx3 & Hsize3); auto.
  rewrite Hx0, Hpatches in Hsize3.
  destruct (AveragePool2D_forward_size (SiglipVisionModel.avg_pool model) x3
              batch (grid_side cfg) (embedding_dim cfg))
    as (y & Hy & Hsize); auto.
  exists y. split; [|now rewrite Z.pow_2_r].
  unfold spec.AveragePool2D.
  destruct (spec.AddPositionEmbedding model x0) as [e|x1]; [discriminate|].
  simpl in *.
  destruct (spec.EncoderStack _ x1) as [e|x2]; [discriminate|].
  simpl in *. rewrite Hx3. simpl. exact Hy.
Qed.

Lemma forward_accepts_equal_patch_counts_witness :
  exists y,
    run (SiglipVisionModel.forward (sample.sized [2; 3; 4; 16]))
      (sample.VisionModel sample.small_config) = inr y
    /\ size y = [2; (grid_side sample.small_config / 4) ^ 2;
                 embedding_dim sample.small_config].
Proof.
  apply (forward_accepts_equal_patch_counts sample.small_config
           (sample.VisionModel sample.small_config)
           (sample.sized [2; 3; 4; 16]) 2 4 16).
  - apply sample_initialized.
  - unfold positive_geometry. simpl. lia.
  - reflexivity.
  - lia.
  - simpl. lia.
  - simpl. lia.
  - reflexivity.
  - vm_compute. discriminate.
Defined.

(** X18. A configuration whose grid of patches has a side below four
    cannot be run: on images of the configured size every stage up to the
    final normalization succeeds, and the pooling raises for want of a
    whole 4x4 window (or the convolution does, when the image is smaller
    than a patch). *)
Theorem forward_raises_below_four_patches `{TensorData}
    (cfg : SiglipVisionModelConfig) (model : SiglipVisionModel.t)
    (pixel_values : Tensor) (batch : Z) :
  SiglipVisionModel.initialized cfg model ->
  positive_geometry cfg ->
  size pixel_values
  = [batch; input_channels cfg; image_size cfg; image_size cfg] ->
  0 <= batch ->
  grid_side cfg < 4 ->
  run (SiglipVisionModel.forward pixel_values) model = inl TorchError.
Proof.
  intros Hinit Hgeometry Hx Hb Hgrid.
  assert (Hpatches : SiglipVisionModel.num_patches model
                     = grid_side cfg * grid_side cfg).
  { destruct Hinit as (_ & -> & _). apply Z.pow_2_r. }
  assert (Hp : 0 < conv2d_patch_size cfg) by apply Hgeometry.
  rewrite forward_is_pipeline. unfold spec.VisionTower.
  destruct (decide (conv2d_patch_size cfg <= image_size cfg)) as [Hfit|Hno].
  - destruct (PatchEmbedding_general cfg model pixel_values batch
                (image_size cfg) (image_size cfg))
      as (x0 & -> & Hx0); auto.
    simpl. fold (grid_side cfg) in Hx0. rewrite <- Hpatches in Hx0.
    destruct (encoder_size cfg model x0 batch) as (x3 & Hx3 & Hsize3); auto.
    rewrite Hx0, Hpatches in Hsize3.
    destruct (spec.AddPositionEmbedding model x0) as [e|x1]; [discriminate|].
    simpl in *.
    destruct (spec.EncoderStack _ x1) as [e|x2]; [discriminate|].
    simpl in *. rewrite Hx3. simpl. unfold spec.AveragePool2D.
    apply (AveragePool2D_small_grid _ x3 batch (grid_side cfg)
             (embedding_dim cfg) Hsize3).
    split; [|assumption]. unfold grid_side.
    apply Z.div_pos; lia.
  - rewrite (PatchEmbedding_rejects cfg model pixel_values _ _ _ _ Hinit Hx);
      [reflexivity|].
    intros (_ & Hh & _). lia.
Qed.

Lemma forward_raises_below_four_patches_witness :
  run (SiglipVisionModel.forward (sample.sized [2; 3; 6; 6]))
    (sample.VisionModel sample.grid3_config) = inl TorchError.
Proof.
  apply (forward_raises_below_four_patches sample.grid3_config
           (sample.VisionModel sample.grid3_config)
           (sample.sized [2; 3; 6; 6]) 2).
  - apply sample_initialized.
  - unfold positive_geometry. simpl. lia.
  - reflexivity.
  - lia.
  - vm_compute. reflexivity.
Defined.
